(** * c2g: moving schedules from a Cybozu CSV export to Google Calendar

    A shallow embedding of [src/index.js]: the comparison of two calendar
    events ([isEqualDate], lines 106-123), the normalisation of the rows of
    the exported CSV (lines 161-215) and the two loops that insert the new
    events and delete the removed ones (lines 229-275).

    JavaScript values are modelled by the small universe the program
    manipulates (strings, [undefined], [null]); [Date] and [moment], which the
    program only calls, are an interface ([Host]) with one executable
    instance for a time zone at a fixed offset from UTC. *)

From Stdlib Require Import ZArith String Ascii List Bool Lia DecimalString.
Import ListNotations.

Local Open Scope string_scope.
Local Open Scope Z_scope.

(* ================================================================== *)
(** ** JavaScript values *)

Module JS.

(** The values an event field or a CSV cell can hold.  A property that is
    absent reads as [JUndefined]. *)
Inductive jsval : Type :=
| JUndefined
| JNull
| JStr (s : string).

(** [a === b] on these values. *)
Definition strict_eq (a b : jsval) : bool :=
  match a, b with
  | JUndefined, JUndefined => true
  | JNull, JNull => true
  | JStr s, JStr t => String.eqb s t
  | _, _ => false
  end.

(** ToBoolean: [undefined], [null] and the empty string are falsy. *)
Definition truthy (v : jsval) : bool :=
  match v with
  | JStr s => negb (String.eqb s "")
  | _ => false
  end.

(** ToString, as used by [+] with a string operand and by template
    literals. *)
Definition to_string (v : jsval) : string :=
  match v with
  | JUndefined => "undefined"
  | JNull => "null"
  | JStr s => s
  end.

(** Strings are kept as their UTF-8 bytes, JavaScript compares UTF-16 code
    units.  The two orders agree except between a character outside the
    Basic Multilingual Plane (UTF-8 lead byte F0..F4, UTF-16 lead unit
    D800..DBFF) and a character of U+E000..U+FFFF (lead byte EE or EF):
    [unit_rank] places the lead bytes F0..F4 between ED and EE. *)
Definition unit_rank (c : ascii) : N :=
  let n := N_of_ascii c in
  if (240 <=? n)%N then (237 * 256 + 128 + (n - 240))%N else (n * 256)%N.

(** [a > b] on two strings: the first differing code unit decides, a proper
    prefix is smaller. *)
Fixpoint str_gt (a b : string) : bool :=
  match a, b with
  | EmptyString, _ => false
  | String _ _, EmptyString => true
  | String x a', String y b' =>
      if (unit_rank y <? unit_rank x)%N then true
      else if (unit_rank x <? unit_rank y)%N then false
      else str_gt a' b'
  end.

(** [a > b] on cells of the CSV, which are strings or [undefined]:
    [undefined] converts to NaN and every comparison with NaN is false.
    ([null] never reaches this operator.) *)
Definition gt (a b : jsval) : bool :=
  match a, b with
  | JStr s, JStr t => str_gt s t
  | _, _ => false
  end.

(** The tabulation and the line feed of the log messages. *)
Definition tab : string := String (ascii_of_nat 9) "".
Definition nl : string := String (ascii_of_nat 10) "".

End JS.
Import JS.

(* ================================================================== *)
(** ** The host: [Date] and [moment] *)

(** A time value: milliseconds since the epoch.  [None] is NaN, the time
    value of an Invalid Date, and an invalid moment. *)
Definition Moment : Type := option Z.

Class Host : Type := {
  (** [new Date(s).getTime()] for a string [s]; depends on the engine and,
      for strings without an offset, on the local time zone. *)
  dateParse : string -> Moment;
  (** [m.clone().add(1, 'd')] on a valid moment. *)
  addOneDay : Z -> Moment;
  (** [m.format("YYYY-MM-DD")] on a valid moment (local calendar date). *)
  formatYMD : Z -> string;
  (** [m.toISOString()] on a valid moment (UTC, with milliseconds). *)
  isoString : Z -> string;
  (** The empty string is not a date. *)
  dateParse_empty : dateParse "" = None
}.

(** How a [try] block ends: normally, or with a thrown value that the
    [catch] clause receives. *)
Inductive Completion (A : Type) : Type :=
| Normal (a : A)
| Thrown (e : string).
Arguments Normal {A} a.
Arguments Thrown {A} e.

Section Program.

Context {H : Host}.

(** [new Date(v).getTime()]: a string is parsed, [null] converts to 0,
    [undefined] to NaN. *)
Definition newDate (v : jsval) : Moment :=
  match v with
  | JStr s => dateParse s
  | JNull => Some 0
  | JUndefined => None
  end.

(** [m.format("YYYY-MM-DD")]; moment prints an invalid moment as
    "Invalid date". *)
Definition format (m : Moment) : string :=
  match m with
  | Some t => formatYMD t
  | None => "Invalid date"
  end.

(** [m.toISOString()]; moment returns [null] for an invalid moment. *)
Definition toISOString (m : Moment) : jsval :=
  match m with
  | Some t => JStr (isoString t)
  | None => JNull
  end.

(** [a.isSameOrAfter(b)]: false as soon as one side is invalid. *)
Definition isSameOrAfter (a b : Moment) : bool :=
  match a, b with
  | Some x, Some y => (y <=? x)
  | _, _ => false
  end.

(** [m.clone()] followed by [.add(1, 'd')]. *)
Definition cloneAddDay (m : Moment) : Moment :=
  match m with
  | Some t => addOneDay t
  | None => None
  end.

(* ------------------------------------------------------------------ *)
(** ** Events *)

(** The [start] and [end] objects of an event: [{ date: ... }] or
    [{ dateTime: ... }]; a property that is not there is [JUndefined]. *)
Record TimeRef : Type := mkTimeRef {
  date : jsval;
  dateTime : jsval
}.

Record Event : Type := mkEvent {
  start : TimeRef;
  end_ : TimeRef;
  location : jsval;
  summary : jsval;
  description : jsval;
  id : jsval
}.

(** [{ date: s }] and [{ dateTime: v }]. *)
Definition dateOnly (s : string) : TimeRef := mkTimeRef (JStr s) JUndefined.
Definition instant (v : jsval) : TimeRef := mkTimeRef JUndefined v.

(* ------------------------------------------------------------------ *)
(** ** [isEqualDate] (lines 106-123) *)

(** [check]: both arguments go through [new Date(..).getTime()] and the two
    numbers are compared with [===]; NaN is equal to nothing. *)
Definition check (d1 d2 : jsval) : bool :=
  match newDate d1, newDate d2 with
  | Some a, Some b => (a =? b)
  | _, _ => false
  end.

(** One of the two [if / else if] statements of [isEqualDate], on the
    [start]s or on the [end]s. *)
Definition isEqualRef (r1 r2 : TimeRef) : bool :=
  if truthy (date r1) && truthy (date r2) && check (date r1) (date r2)
  then true
  else if truthy (dateTime r1) && truthy (dateTime r2)
          && check (dateTime r1) (dateTime r2)
  then true
  else false.

Definition isEqualDate (t1 t2 : Event) : bool :=
  let isEqualStart := isEqualRef (start t1) (start t2) in
  let isEqualEnd := isEqualRef (end_ t1) (end_ t2) in
  isEqualStart && isEqualEnd.

(** The test of the inner loops (lines 236-238 and 260-262): the summaries
    are compared with [===] first, then the dates. *)
Definition occurrenceMatch (old event : Event) : bool :=
  if strict_eq (summary old) (summary event)
  then isEqualDate old event
  else false.

(* ------------------------------------------------------------------ *)
(** ** Normalisation of one CSV row (lines 166-211) *)

(** A record of the CSV: its cells in order.  [line[k]] is [undefined]
    past the last cell. *)
Definition Row : Type := list string.

Definition cell (line : Row) (k : nat) : jsval :=
  match nth_error line k with
  | Some s => JStr s
  | None => JUndefined
  end.

(** Lines 167-186: the four date and time cells after the end-of-day
    default and the swap of a reversed range. *)
Definition adjustRange (line : Row) : jsval * jsval * jsval * jsval :=
  let startDate := cell line 0 in
  let startTime := cell line 1 in
  let endDate := cell line 2 in
  let endTime := cell line 3 in
  if strict_eq startDate endDate then
    if negb (strict_eq startTime (JStr "")) && strict_eq endTime (JStr "")
    then (startDate, startTime, endDate, JStr "23:59:59")
    else (startDate, startTime, endDate, endTime)
  else if gt startDate endDate then
    (endDate, endTime, startDate, startTime)
  else (startDate, startTime, endDate, endTime).

(** Lines 191-194. *)
Definition buildSummary (line : Row) : string :=
  let summary := to_string (cell line 5) in
  if negb (strict_eq (cell line 4) (JStr ""))
  then "[" ++ to_string (cell line 4) ++ "] " ++ summary
  else summary.

(** The body of the [try] block: no statement of it throws ([Date] and
    [moment] answer an unparseable string with an invalid value), so it
    always reaches [newEvents.push]. *)
Definition normalizeRow (line : Row) : Event :=
  let '(startDate, startTime, endDate, endTime) := adjustRange line in
  let startMoment := dateParse (to_string startDate ++ " " ++ to_string startTime) in
  let endMoment := dateParse (to_string endDate ++ " " ++ to_string endTime) in
  let summary := buildSummary line in
  let description := cell line 6 in
  let location := cell line 8 in
  if strict_eq startTime (JStr "") && strict_eq endTime (JStr "") then
    let endMoment :=
      if isSameOrAfter startMoment endMoment
      then cloneAddDay startMoment
      else endMoment in
    mkEvent (dateOnly (format startMoment)) (dateOnly (format endMoment))
            location (JStr summary) description JUndefined
  else
    mkEvent (instant (toISOString startMoment)) (instant (toISOString endMoment))
            location (JStr summary) description JUndefined.

(* ------------------------------------------------------------------ *)
(** ** The loop over the CSV records (lines 162-215) *)

(** What the loop builds: the array [newEvents] and the strings passed to
    [log] by the [catch] clause. *)
Record Parsed : Type := mkParsed {
  newEvents : list Event;
  caught : list string
}.

(** [forEach((line, i) => ...)]: record 0, the header, is skipped; the
    event of a body that completes normally is pushed; a thrown value is
    logged and the loop goes on with the next record. *)
Fixpoint forEachLine (body : Row -> Completion Event) (i : nat)
         (lines : list Row) (acc : Parsed) : Parsed :=
  match lines with
  | [] => acc
  | line :: rest =>
      let acc' :=
        if Nat.eqb i 0 then acc
        else match body line with
             | Normal event => mkParsed (newEvents acc ++ [event])%list (caught acc)
             | Thrown e => mkParsed (newEvents acc) (caught acc ++ [(e ++ nl)%string])%list
             end in
      forEachLine body (S i) rest acc'
  end.

Definition tryNormalize (line : Row) : Completion Event :=
  Normal (normalizeRow line).

Definition parseRows (lines : list Row) : Parsed :=
  forEachLine tryNormalize 0 lines (mkParsed [] []).

(* ------------------------------------------------------------------ *)
(** ** Inserting and deleting (lines 229-275) *)

(** The two calls made to the calendar API. *)
Inductive Action : Type :=
| Insert (event : Event)
| Delete (eventId : jsval).

(** What the run does that can be seen from outside, in order: calls of
    [log] and calls of the calendar API. *)
Inductive Obs : Type :=
| Logged (s : string)
| Called (a : Action).

(** The code between two [await]s: it makes observations, counts the API
    calls made so far and either goes on with a value or stops because an
    awaited promise was rejected (nothing in the async function catches
    it).  [oracle k] tells whether the [k]-th API call of the run
    succeeds. *)
Definition Oracle : Type := nat -> bool.
Definition M (A : Type) : Type := Oracle -> nat -> list Obs * nat * option A.

Definition ret {A} (a : A) : M A := fun _ n => ([], n, Some a).

Definition bind {A B} (m : M A) (f : A -> M B) : M B :=
  fun oracle n =>
    let '(o1, n1, r) := m oracle n in
    match r with
    | None => (o1, n1, None)
    | Some a => let '(o2, n2, r2) := f a oracle n1 in ((o1 ++ o2)%list, n2, r2)
    end.

Notation "x <- m ;; k" := (bind m (fun x => k))
  (at level 61, m at next level, right associativity).
Notation "m ;; k" := (bind m (fun _ => k))
  (at level 61, right associativity).

Definition log (s : string) : M unit := fun _ n => ([Logged s], n, Some tt).

Definition await (a : Action) : M unit :=
  fun oracle n => ([Called a], S n, if oracle n then Some tt else None).

(** [`${n}`] for a counter. *)
Definition showCount (n : nat) : string :=
  NilEmpty.string_of_uint (Nat.to_uint n).

(** Lines 233-242: the inner loop over [oldEvents], with the variable
    [isEqual] and the [break]. *)
Fixpoint scanOld (event : Event) (oldEvents : list Event) (isEqual : bool) : bool :=
  match oldEvents with
  | [] => isEqual
  | old :: rest =>
      if strict_eq (summary old) (summary event) then
        let isEqual := isEqualDate old event in
        if isEqual then isEqual else scanOld event rest isEqual
      else scanOld event rest isEqual
  end.

(** Lines 257-266: the inner loop over [newEvents]. *)
Fixpoint scanNew (old : Event) (newEvents : list Event) (isEqual : bool) : bool :=
  match newEvents with
  | [] => isEqual
  | event :: rest =>
      if strict_eq (summary old) (summary event) then
        let isEqual := isEqualDate old event in
        if isEqual then isEqual else scanNew old rest isEqual
      else scanNew old rest isEqual
  end.

(** Lines 232-250. *)
Fixpoint insertLoop (oldEvents todo : list Event) (insertedCount : nat) : M nat :=
  match todo with
  | [] => ret insertedCount
  | event :: rest =>
      let isEqual := scanOld event oldEvents false in
      if negb isEqual then
        await (Insert event) ;;
        log (tab ++ "Inserted: " ++ to_string (summary event) ++ nl) ;;
        insertLoop oldEvents rest (S insertedCount)
      else insertLoop oldEvents rest insertedCount
  end.

(** Lines 256-274. *)
Fixpoint deleteLoop (newEvents todo : list Event) (deletedCount : nat) : M nat :=
  match todo with
  | [] => ret deletedCount
  | old :: rest =>
      let isEqual := scanNew old newEvents false in
      if negb isEqual then
        await (Delete (id old)) ;;
        log (tab ++ "Deleted: " ++ to_string (summary old) ++ nl) ;;
        deleteLoop newEvents rest (S deletedCount)
      else deleteLoop newEvents rest deletedCount
  end.

(** Lines 229-275. *)
Definition syncEvents (newEvents oldEvents : list Event) : M unit :=
  log (">>>> Inserting new events..." ++ nl) ;;
  insertedCount <- insertLoop oldEvents newEvents 0 ;;
  log (">>>> Inserted " ++ showCount insertedCount ++ " events." ++ nl) ;;
  log (">>>> Deleting removed events..." ++ nl) ;;
  deletedCount <- deleteLoop newEvents oldEvents 0 ;;
  log (">>>> Deleted " ++ showCount deletedCount ++ " events." ++ nl).

(** The observations of the two loops, and whether the async function
    ran to its end. *)
Definition sync (oracle : Oracle) (newEvents oldEvents : list Event)
  : list Obs * bool :=
  let '(obs, _, r) := syncEvents newEvents oldEvents oracle 0%nat in
  (obs, match r with Some _ => true | None => false end).

(** The run from the parsed CSV on. *)
Definition run (oracle : Oracle) (lines : list Row) (oldEvents : list Event)
  : list Obs * bool :=
  sync oracle (newEvents (parseRows lines)) oldEvents.

(** The API calls among the observations. *)
Fixpoint calls (obs : list Obs) : list Action :=
  match obs with
  | [] => []
  | Called a :: rest => a :: calls rest
  | Logged _ :: rest => calls rest
  end.

(** The strings logged. *)
Fixpoint logged (obs : list Obs) : list string :=
  match obs with
  | [] => []
  | Logged s :: rest => s :: logged rest
  | Called _ :: rest => logged rest
  end.

End Program.

(* ================================================================== *)
(** ** An executable host: V8's [Date] and [moment] in a zone at a fixed
       offset from UTC *)

Module Calendar.

Definition msPerDay : Z := 86400000.

(** ECMAScript's day number of the first of January of year [y]. *)
Definition dayFromYear (y : Z) : Z :=
  365 * (y - 1970) + (y - 1969) / 4 - (y - 1901) / 100 + (y - 1601) / 400.

Definition isLeap (y : Z) : bool :=
  ((y mod 4 =? 0) && negb (y mod 100 =? 0)) || (y mod 400 =? 0).

(** Days of the year before month [m] (1 to 12). *)
Definition daysBeforeMonth (leap : bool) (m : Z) : Z :=
  let l := if leap then 1 else 0 in
  if m <=? 1 then 0
  else if m =? 2 then 31
  else if m =? 3 then 59 + l
  else if m =? 4 then 90 + l
  else if m =? 5 then 120 + l
  else if m =? 6 then 151 + l
  else if m =? 7 then 181 + l
  else if m =? 8 then 212 + l
  else if m =? 9 then 243 + l
  else if m =? 10 then 273 + l
  else if m =? 11 then 304 + l
  else 334 + l.

Definition daysInMonth (leap : bool) (m : Z) : Z :=
  if m =? 2 then (if leap then 29 else 28)
  else if (m =? 4) || (m =? 6) || (m =? 9) || (m =? 11) then 30
  else 31.

(** MakeDay: a day of the month past the end of the month runs into the
    next one. *)
Definition makeDay (y m d : Z) : Z :=
  dayFromYear y + daysBeforeMonth (isLeap y) m + d - 1.

(** MakeTime. *)
Definition makeTime (h mi s ms : Z) : Z :=
  ((h * 60 + mi) * 60 + s) * 1000 + ms.

(** YearFromTime: the largest year whose first day is not after [day].
    It is searched next to the year that contains [day] when every year
    has the average length of 146097/400 days. *)
Definition yearFromDay (day : Z) : Z :=
  let y := 1970 + (400 * day) / 146097 in
  if dayFromYear (y + 1) <=? day then y + 1
  else if day <? dayFromYear y then y - 1
  else y.

(** MonthFromTime (1 to 12), from the day within the year. *)
Definition monthFromDay (leap : bool) (dayWithinYear : Z) : Z :=
  let l := if leap then 1 else 0 in
  if dayWithinYear <? 31 then 1
  else if dayWithinYear <? 59 + l then 2
  else if dayWithinYear <? 90 + l then 3
  else if dayWithinYear <? 120 + l then 4
  else if dayWithinYear <? 151 + l then 5
  else if dayWithinYear <? 181 + l then 6
  else if dayWithinYear <? 212 + l then 7
  else if dayWithinYear <? 243 + l then 8
  else if dayWithinYear <? 273 + l then 9
  else if dayWithinYear <? 304 + l then 10
  else if dayWithinYear <? 334 + l then 11
  else 12.

(** YearFromTime, MonthFromTime and DateFromTime of a day number. *)
Definition civilFromDay (day : Z) : Z * Z * Z :=
  let y := yearFromDay day in
  let leap := isLeap y in
  let dayWithinYear := day - dayFromYear y in
  let m := monthFromDay leap dayWithinYear in
  (y, m, dayWithinYear - daysBeforeMonth leap m + 1).

(** A date of the calendar: a month of the year and a day of that
    month. *)
Definition validDate (y m d : Z) : bool :=
  (1 <=? m) && (m <=? 12) && (1 <=? d) && (d <=? daysInMonth (isLeap y) m).

(** The date that follows. *)
Definition nextDay (c : Z * Z * Z) : Z * Z * Z :=
  let '(y, m, d) := c in
  if d <? daysInMonth (isLeap y) m then (y, m, d + 1)
  else if m <? 12 then (y, m + 1, 1)
  else (y + 1, 1, 1).

End Calendar.

Module Text.

Definition digitVal (c : ascii) : option Z :=
  let n := Z.of_N (N_of_ascii c) in
  if (48 <=? n) && (n <=? 57) then Some (n - 48) else None.

Fixpoint numberAcc (s : string) (acc : Z) : option Z :=
  match s with
  | EmptyString => Some acc
  | String c r =>
      match digitVal c with
      | Some d => numberAcc r (10 * acc + d)
      | None => None
      end
  end.

(** A non-empty run of decimal digits. *)
Definition number (s : string) : option Z :=
  match s with
  | EmptyString => None
  | _ => numberAcc s 0
  end.

(** A run of exactly [w] digits. *)
Definition fixedNumber (w : nat) (s : string) : option Z :=
  if Nat.eqb (String.length s) w then number s else None.

(** A run of one or two digits. *)
Definition shortNumber (s : string) : option Z :=
  if Nat.leb (String.length s) 2 then number s else None.

Fixpoint splitOn (sep : ascii) (s : string) : list string :=
  match s with
  | EmptyString => [EmptyString]
  | String c r =>
      if Ascii.eqb c sep then EmptyString :: splitOn sep r
      else match splitOn sep r with
           | h :: t => String c h :: t
           | [] => [String c EmptyString]
           end
  end.

(** The text before and after the first occurrence of [sep]. *)
Fixpoint cutAt (sep : ascii) (s : string) : option (string * string) :=
  match s with
  | EmptyString => None
  | String c r =>
      if Ascii.eqb c sep then Some (EmptyString, r)
      else match cutAt sep r with
           | Some (a, b) => Some (String c a, b)
           | None => None
           end
  end.

Definition decimal (n : Z) : string :=
  NilEmpty.string_of_uint (N.to_uint (Z.to_N n)).

Fixpoint zeros (k : nat) : string :=
  match k with
  | O => EmptyString
  | S k' => String "0" (zeros k')
  end.

(** moment's [zeroFill(number, targetLength, forceSign)]. *)
Definition zeroFill (n : Z) (targetLength : nat) (forceSign : bool) : string :=
  let absNumber := decimal (Z.abs n) in
  (if 0 <=? n then (if forceSign then "+" else "") else "-")
  ++ zeros (targetLength - String.length absNumber) ++ absNumber.

(** No character of [s] is [c]. *)
Fixpoint freeOf (c : ascii) (s : string) : bool :=
  match s with
  | EmptyString => true
  | String x r => negb (Ascii.eqb x c) && freeOf c r
  end.

End Text.

Module FixedOffset.
Import Calendar Text.

(** A date of the forms the parser takes: four-digit year from 1000 on,
    month 1 to 12, day 1 to 31. *)
Definition checkYMD (y m d : option Z) : option (Z * Z * Z) :=
  match y, m, d with
  | Some y, Some m, Some d =>
      if (1000 <=? y) && (1 <=? m) && (m <=? 12) && (1 <=? d) && (d <=? 31)
      then Some (y, m, d) else None
  | _, _, _ => None
  end.

(** [YYYY-MM-DD]. *)
Definition isoDate (s : string) : option (Z * Z * Z) :=
  match splitOn "-" s with
  | [y; m; d] => checkYMD (fixedNumber 4 y) (fixedNumber 2 m) (fixedNumber 2 d)
  | _ => None
  end.

(** [YYYY/M/D], month and day of one or two digits. *)
Definition slashDate (s : string) : option (Z * Z * Z) :=
  match splitOn "/" s with
  | [y; m; d] => checkYMD (fixedNumber 4 y) (shortNumber m) (shortNumber d)
  | _ => None
  end.

Definition checkHMS (h mi s : option Z) : option Z :=
  match h, mi, s with
  | Some h, Some mi, Some s =>
      if (h <=? 23) && (mi <=? 59) && (s <=? 59)
      then Some (makeTime h mi s 0) else None
  | _, _, _ => None
  end.

(** [H:MM] or [H:MM:SS] after a date and a space; nothing at all is
    midnight. *)
Definition clockTime (s : string) : option Z :=
  match s with
  | EmptyString => Some 0
  | _ =>
      match splitOn ":" s with
      | [h; mi] => checkHMS (shortNumber h) (fixedNumber 2 mi) (Some 0)
      | [h; mi; se] => checkHMS (shortNumber h) (fixedNumber 2 mi) (fixedNumber 2 se)
      | _ => None
      end
  end.

(** The offset that ends an ISO date-time: [Z] or [+HH:MM] or [-HH:MM],
    in minutes east of UTC. *)
Definition zoneOffset (s : string) : option Z :=
  match s with
  | "Z" => Some 0
  | String sign r =>
      match fixedNumber 2 (substring 0 2 r), substring 2 1 r,
            fixedNumber 2 (substring 3 2 r) with
      | Some h, ":", Some mi =>
          if Nat.eqb (String.length r) 5 && (h <=? 23) && (mi <=? 59) then
            if Ascii.eqb sign "+" then Some (h * 60 + mi)
            else if Ascii.eqb sign "-" then Some (- (h * 60 + mi))
            else None
          else None
      | _, _, _ => None
      end
  | EmptyString => None
  end.

(** [HH:MM:SS], an optional [.sss], and the offset: milliseconds of the
    day and minutes of offset. *)
Definition isoClock (s : string) : option (Z * Z) :=
  match checkHMS (fixedNumber 2 (substring 0 2 s))
                 (fixedNumber 2 (substring 3 2 s))
                 (fixedNumber 2 (substring 6 2 s)),
        substring 2 1 s, substring 5 1 s with
  | Some t, ":", ":" =>
      let rest := substring 8 (String.length s - 8) s in
      match rest with
      | String "." r =>
          match fixedNumber 3 (substring 0 3 r),
                zoneOffset (substring 3 (String.length r - 3) r) with
          | Some ms, Some off => Some (t + ms, off)
          | _, _ => None
          end
      | _ =>
          match zoneOffset rest with
          | Some off => Some (t, off)
          | None => None
          end
      end
  | _, _, _ => None
  end.

(** The tokens [YYYY-MM-DD] of moment. *)
Definition ymdText (y m d : Z) : string :=
  zeroFill y 4 false ++ "-" ++ zeroFill m 2 false ++ "-" ++ zeroFill d 2 false.

Section Zone.

(** Minutes east of UTC of the local zone (540 in Japan). *)
Variable tz : Z.

Definition utcTime (ymd : Z * Z * Z) (msOfDay : Z) : Z :=
  let '(y, m, d) := ymd in makeDay y m d * msPerDay + msOfDay.

Definition localTime (ymd : Z * Z * Z) (msOfDay : Z) : Z :=
  utcTime ymd msOfDay - tz * 60000.

(** [new Date(s).getTime()] in V8, on the forms
    - [YYYY-MM-DD] alone: midnight UTC;
    - [YYYY-MM-DDTHH:MM:SS], optional [.sss], then [Z] or an offset;
    - [YYYY/M/D] alone: local midnight;
    - [YYYY-MM-DD] or [YYYY/M/D], a space, and [H:MM], [H:MM:SS] or
      nothing: local time.
    Every other string counts as unparseable here. *)
Definition parse (s : string) : Moment :=
  match cutAt "T" s with
  | Some (d, t) =>
      match isoDate d, isoClock t with
      | Some ymd, Some (ms, off) => Some (utcTime ymd ms - off * 60000)
      | _, _ => None
      end
  | None =>
      match cutAt " " s with
      | Some (d, t) =>
          match (match isoDate d with Some ymd => Some ymd | None => slashDate d end),
                clockTime t with
          | Some ymd, Some ms => Some (localTime ymd ms)
          | _, _ => None
          end
      | None =>
          match isoDate s with
          | Some ymd => Some (utcTime ymd 0)
          | None =>
              match slashDate s with
              | Some ymd => Some (localTime ymd 0)
              | None => None
              end
          end
      end
  end.

(** One day later on the local clock; the offset never changes, so this
    is 24 hours. *)
Definition plusDay (t : Z) : Moment := Some (t + msPerDay).

(** [format("YYYY-MM-DD")]: the local calendar date. *)
Definition ymdString (t : Z) : string :=
  let '(y, m, d) := civilFromDay ((t + tz * 60000) / msPerDay) in
  ymdText y m d.

End Zone.

(** [toISOString()]: the UTC date and time; a year outside 0..9999 is
    written with a sign and six digits. *)
Definition isoText (t : Z) : string :=
  let '(y, m, d) := civilFromDay (t / msPerDay) in
  let r := t mod msPerDay in
  (if (0 <=? y) && (y <=? 9999) then zeroFill y 4 false else zeroFill y 6 true)
  ++ "-" ++ zeroFill m 2 false ++ "-" ++ zeroFill d 2 false
  ++ "T" ++ zeroFill (r / 3600000) 2 false
  ++ ":" ++ zeroFill (r / 60000 mod 60) 2 false
  ++ ":" ++ zeroFill (r / 1000 mod 60) 2 false
  ++ "." ++ zeroFill (r mod 1000) 3 false ++ "Z".

Definition host (tz : Z) : Host :=
  {| dateParse := parse tz;
     addOneDay := plusDay;
     formatYMD := ymdString tz;
     isoString := isoText;
     dateParse_empty := eq_refl |}.

(** Japan Standard Time. *)
Definition jst : Host := host 540.

End FixedOffset.

(* ================================================================== *)
(** ** Checks by computation over a range *)

Module Checks.
Import Calendar Text.

(** [P] holds of [z], [z + 1], ..., [z + count - 1]. *)
Fixpoint allFrom (P : Z -> bool) (count : nat) (z : Z) : bool :=
  match count with
  | O => true
  | S count' => P z && allFrom P count' (z + 1)
  end.

(** Year [y] has 365 days, or 366 when it is a leap year, and the first
    days of the years around it lie where [yearFromDay] looks for them. *)
Definition yearOK (y : Z) : bool :=
  (dayFromYear (y + 1) =? dayFromYear y + (if isLeap y then 366 else 365))
  && (146097 * (y - 1969) <=? 400 * dayFromYear (y + 2))
  && (400 * (dayFromYear (y - 1) + 1) <=? 146097 * (y - 1970) + 400).

Definition optEq (a : option Z) (b : Z) : bool :=
  match a with
  | Some x => x =? b
  | None => false
  end.

(** Free of the characters that separate the parts of a date and time. *)
Definition plain (s : string) : bool :=
  freeOf "-" s && freeOf " " s && freeOf "T" s.

(** [n] written on [w] digits reads back as [n]. *)
Definition digitsOK (w : nat) (n : Z) : bool :=
  optEq (fixedNumber w (zeroFill n w false)) n && plain (zeroFill n w false).

End Checks.

(* ================================================================== *)
(** ** Sample records *)

Module Samples.

Definition header : Row :=
  ["startDate"; "startTime"; "endDate"; "endTime"; "category"; "title";
   "description"; "members"; "location"].

(** The two scenarios of the specification. *)
Definition offsite : Row :=
  ["2024-01-10"; ""; "2024-01-10"; ""; ""; "Offsite"; ""; ""; "HQ"].

Definition planning : Row :=
  ["2024-01-10"; "14:00"; "2024-01-10"; ""; "会議"; "Planning"; "notes"; "";
   "Room A"].

(** Dates that are not dates. *)
Definition undated : Row :=
  ["not a date"; ""; "not a date"; ""; ""; "Offsite"; ""; ""; "HQ"].

(** From the first of September to the first of October, months and days
    written without a leading zero. *)
Definition autumn : Row :=
  ["2024/9/1"; "10:00"; "2024/10/1"; "11:00"; ""; "Trip"; ""; ""; ""].

(** A start date after the end date, and no end time. *)
Definition backwards : Row :=
  ["2024-01-12"; "14:00"; "2024-01-10"; ""; ""; "Review"; ""; ""; ""].

(** A start date before the end date, and no end time. *)
Definition openEnded : Row :=
  ["2024-01-10"; "14:00"; "2024-01-12"; ""; ""; "Review"; ""; ""; ""].

(** An event as the calendar lists it, entered there by hand. *)
Definition listedPlanning : Event :=
  mkEvent (instant (JStr "2024-01-10T14:00:00+09:00"))
          (instant (JStr "2024-01-10T23:59:59+09:00"))
          (JStr "Room B") (JStr "[会議] Planning") (JStr "agenda")
          (JStr "evt1").

Definition listedLunch : Event :=
  mkEvent (dateOnly "2024-01-15") (dateOnly "2024-01-16")
          JUndefined (JStr "Lunch") JUndefined (JStr "evt2").

(** The first call to the calendar API fails, the others succeed. *)
Definition firstCallFails : Oracle :=
  fun k => match k with O => false | S _ => true end.

End Samples.

(* ================================================================== *)
(** ** The specification's vocabulary *)

Section Vocabulary.

Context {H : Host}.

(** The two variants of a [start] or [end]: which property is there. *)
Definition isDateOnly (r : TimeRef) : Prop :=
  date r <> JUndefined /\ dateTime r = JUndefined.

Definition isInstant (r : TimeRef) : Prop :=
  date r = JUndefined /\ dateTime r <> JUndefined.

Definition sameVariant (e : Event) : Prop :=
  (isDateOnly (start e) /\ isDateOnly (end_ e))
  \/ (isInstant (start e) /\ isInstant (end_ e)).

(** A [start] or [end] that does not carry both properties at once: the
    values of the data model, and the degenerate objects with a [null]
    property or none. *)
Definition wellFormed (r : TimeRef) : Prop :=
  date r = JUndefined \/ dateTime r = JUndefined.

(** Equality of two [start] or [end] values as the specification words it:
    two date-only values are equal when their dates denote the same
    instant, two instants when they are the same instant; there is no rule
    for a date-only value and an instant. *)
Inductive sameValue : TimeRef -> TimeRef -> Prop :=
| same_dates (s1 s2 : string) (t : Z) :
    dateParse s1 = Some t -> dateParse s2 = Some t ->
    sameValue (dateOnly s1) (dateOnly s2)
| same_instants (s1 s2 : string) (t : Z) :
    dateParse s1 = Some t -> dateParse s2 = Some t ->
    sameValue (instant (JStr s1)) (instant (JStr s2)).

(** [sameOccurrence] of the specification. *)
Definition sameOccurrence (a b : Event) : Prop :=
  summary a = summary b
  /\ sameValue (start a) (start b)
  /\ sameValue (end_ a) (end_ b).

(** The events of [xs] that no event of [ys] matches, [matches y x]
    being the test. *)
Definition unmatched (matches : Event -> Event -> bool)
           (xs ys : list Event) : list Event :=
  filter (fun x => negb (existsb (fun y => matches y x) ys)) xs.

(** [toInsert] and [toDelete] of the specification. *)
Definition toInsert (source destination : list Event) : list Event :=
  unmatched (fun old event => occurrenceMatch old event) source destination.

Definition toDelete (source destination : list Event) : list Event :=
  unmatched (fun event old => occurrenceMatch old event) destination source.

(** The API calls of a run in which every call is attempted. *)
Definition planned (source destination : list Event) : list Action :=
  (map Insert (toInsert source destination)
   ++ map (fun old => Delete (id old)) (toDelete source destination))%list.

(** The lines logged after a successful call. *)
Definition insertLine (event : Event) : string :=
  tab ++ "Inserted: " ++ to_string (summary event) ++ nl.

Definition deleteLine (old : Event) : string :=
  tab ++ "Deleted: " ++ to_string (summary old) ++ nl.

Definition insertReports (events : list Event) : list Obs :=
  flat_map (fun event => [Called (Insert event); Logged (insertLine event)])
           events.

Definition deleteReports (olds : list Event) : list Obs :=
  flat_map (fun old => [Called (Delete (id old)); Logged (deleteLine old)])
           olds.

(** The observations of a run in which every call is attempted and
    succeeds: each call is followed by its line in the log. *)
Definition fullRun (source destination : list Event) : list Obs :=
  ([Logged (">>>> Inserting new events..." ++ nl)]
   ++ insertReports (toInsert source destination)
   ++ [Logged (">>>> Inserted "
               ++ showCount (List.length (toInsert source destination))
               ++ " events." ++ nl);
       Logged (">>>> Deleting removed events..." ++ nl)]
   ++ deleteReports (toDelete source destination)
   ++ [Logged (">>>> Deleted "
               ++ showCount (List.length (toDelete source destination))
               ++ " events." ++ nl)])%list.

(** The observations up to and including call number [k] (from 0). *)
Fixpoint throughCall (k : nat) (obs : list Obs) : list Obs :=
  match obs with
  | [] => []
  | Logged s :: rest => Logged s :: throughCall k rest
  | Called a :: rest =>
      match k with
      | O => [Called a]
      | S k' => Called a :: throughCall k' rest
      end
  end.

(** The number of the first call that fails among the calls [from],
    [from + 1], ..., [from + count - 1]. *)
Fixpoint firstFailure (oracle : Oracle) (from count : nat) : option nat :=
  match count with
  | O => None
  | S count' =>
      if oracle from then firstFailure oracle (S from) count' else Some from
  end.

(** The events of the records whose body completes normally. *)
Definition successes (body : Row -> Completion Event) (lines : list Row)
  : list Event :=
  flat_map (fun line => match body line with
                        | Normal event => [event]
                        | Thrown _ => []
                        end) lines.

End Vocabulary.

(* ================================================================== *)
(** ** Digits *)

Module Digits.
Import Text.

(** The character of a digit. *)
Definition digitChar (k : Z) : ascii := ascii_of_nat (48 + Z.to_nat k).

Definition twoChars (n : Z) : string :=
  String (digitChar (n / 10)) (String (digitChar (n mod 10)) EmptyString).

Definition threeChars (n : Z) : string :=
  String (digitChar (n / 100)) (twoChars (n mod 100)).

Definition fourChars (n : Z) : string :=
  String (digitChar (n / 1000)) (threeChars (n mod 1000)).

(** [n] padded to [w] digits is written with the characters [chars n]. *)
Definition layoutOK (w : nat) (chars : Z -> string) (n : Z) : bool :=
  String.eqb (zeroFill n w false) (chars n).

(** The instants from the beginning of year [ya] to the end of year
    [yb - 1]. *)
Definition inYears (ya yb t : Z) : Prop :=
  Calendar.dayFromYear ya * Calendar.msPerDay <= t
  < Calendar.dayFromYear yb * Calendar.msPerDay.

(** One date before another. *)
Definition dateLt (c1 c2 : Z * Z * Z) : Prop :=
  let '(y1, m1, d1) := c1 in
  let '(y2, m2, d2) := c2 in
  y1 < y2 \/ (y1 = y2 /\ (m1 < m2 \/ (m1 = m2 /\ d1 < d2))).

End Digits.

(* ================================================================== *)
(** ** The export form (lines 98-101 and 147-154) *)

Module ExportForm.
Import Text.

(** [n + ''] for an integer [n]. *)
Definition numberText (n : Z) : string :=
  (if n <? 0 then "-" else "") ++ decimal (Z.abs n).

(** The calls [page.select(selector, value)] of lines 148-154 in order:
    the [name] of the [select] element and the value chosen.  [year],
    [month] and [day] are [now.getFullYear()], [now.getMonth() + 1] and
    [now.getDate()]. *)
Definition selectDates (year month day : Z) : list (string * string) :=
  [("SetDate.Year", numberText year);
   ("SetDate.Month", numberText month);
   ("SetDate.Day", numberText day);
   ("EndDate.Year", numberText (year + 1));
   ("EndDate.Month", numberText month);
   ("EndDate.Day", numberText day);
   ("oencoding", "UTF-8")].

(** The value chosen last for the [select] called [name]. *)
Fixpoint chosen (name : string) (form : list (string * string))
  : option string :=
  match form with
  | [] => None
  | (n, v) :: rest =>
      match chosen name rest with
      | Some v' => Some v'
      | None => if String.eqb n name then Some v else None
      end
  end.

End ExportForm.

(* ================================================================== *)
(** ** More vocabulary *)

Section MoreVocabulary.

Context {H : Host}.

(** A [start] or [end] with a [date] or a [dateTime] that parses. *)
Definition hasInstant (r : TimeRef) : Prop :=
  (exists s t, date r = JStr s /\ dateParse s = Some t)
  \/ (exists s t, dateTime r = JStr s /\ dateParse s = Some t).

(** The strings given to [new Date] at lines 188 and 189. *)
Definition startText (line : Row) : string :=
  let '(startDate, startTime, _, _) := adjustRange line in
  to_string startDate ++ " " ++ to_string startTime.

Definition endText (line : Row) : string :=
  let '(_, _, endDate, endTime) := adjustRange line in
  to_string endDate ++ " " ++ to_string endTime.

(** The calendar after a run in which every call succeeded: the events
    that were not deleted, and for each inserted event what the calendar
    stored for it. *)
Definition afterRun (stored : Event -> Event)
           (source destination : list Event) : list Event :=
  (filter (fun old => existsb (fun event => occurrenceMatch old event) source)
          destination
   ++ map stored (toInsert source destination))%list.

End MoreVocabulary.

(* ================================================================== *)
(** * Properties *)

(** ** JavaScript values *)

Lemma strict_eq_true (a b : jsval) : strict_eq a b = true <-> a = b.
Proof.
  destruct a, b; simpl; split; intro E; try congruence; try reflexivity.
  - apply String.eqb_eq in E. now subst.
  - injection E as ->. apply String.eqb_refl.
Qed.

Lemma strict_eq_refl (a : jsval) : strict_eq a a = true.
Proof. now apply strict_eq_true. Qed.

Lemma strict_eq_false (a b : jsval) : strict_eq a b = false <-> a <> b.
Proof.
  split.
  - intros E ->. rewrite strict_eq_refl in E. discriminate.
  - intro N. destruct (strict_eq a b) eqn:E; [|reflexivity].
    apply strict_eq_true in E. contradiction.
Qed.

Lemma str_gt_irrefl (s : string) : str_gt s s = false.
Proof.
  induction s as [|c s IH]; simpl; [reflexivity|].
  now rewrite N.ltb_irrefl.
Qed.

Lemma truthy_JStr (v : jsval) :
  truthy v = true <-> exists s, v = JStr s /\ s <> "".
Proof.
  destruct v as [| |s]; simpl; split.
  1-4: try discriminate; intros (s & E & _); discriminate.
  - intro E. exists s. split; [reflexivity|].
    apply negb_true_iff, String.eqb_neq in E. exact E.
  - intros (s' & E & N). injection E as ->.
    apply negb_true_iff, String.eqb_neq. exact N.
Qed.

(** ** Normalisation *)

Section Normalizer.

Context {H : Host}.

Lemma cell_nonempty (line : Row) (k : nat) (s : string) :
  cell line k = JStr s -> s <> "" ->
  negb (strict_eq (cell line k) (JStr "")) = true.
Proof.
  intros -> N. simpl. apply negb_true_iff, String.eqb_neq. exact N.
Qed.

(** The variant of the emitted event is decided by one test, for [start]
    and [end] together. *)
Lemma normalizeRow_variant (line : Row) : sameVariant (normalizeRow line).
Proof.
  unfold normalizeRow.
  destruct (adjustRange line) as [[[sd st] ed] et].
  destruct (strict_eq st (JStr "") && strict_eq et (JStr "")).
  - left. unfold isDateOnly; simpl. repeat split; congruence.
  - right. unfold isInstant; simpl.
    repeat split; try reflexivity; unfold toISOString;
      match goal with |- context [match ?m with _ => _ end] => destruct m end;
      congruence.
Qed.

(** So [start] and [end] never carry both properties. *)
Lemma normalizeRow_wellFormed (line : Row) :
  wellFormed (start (normalizeRow line))
  /\ wellFormed (end_ (normalizeRow line)).
Proof.
  destruct (normalizeRow_variant line) as [[[_ S] [_ E]]|[[S _] [E _]]];
    unfold wellFormed; auto.
Qed.

(** The three outcomes of lines 173-186 on cells that are strings. *)
Lemma adjustRange_endOfDay (line : Row) (sd st : string) :
  cell line 0 = JStr sd -> cell line 1 = JStr st ->
  cell line 2 = JStr sd -> cell line 3 = JStr "" -> st <> "" ->
  adjustRange line = (JStr sd, JStr st, JStr sd, JStr "23:59:59").
Proof.
  intros E0 E1 E2 E3 N. unfold adjustRange. rewrite E0, E1, E2, E3.
  rewrite strict_eq_refl. simpl.
  apply String.eqb_neq in N. now rewrite N.
Qed.

Lemma adjustRange_swap (line : Row) (sd st ed et : string) :
  cell line 0 = JStr sd -> cell line 1 = JStr st ->
  cell line 2 = JStr ed -> cell line 3 = JStr et ->
  str_gt sd ed = true ->
  adjustRange line = (JStr ed, JStr et, JStr sd, JStr st).
Proof.
  intros E0 E1 E2 E3 G. unfold adjustRange. rewrite E0, E1, E2, E3.
  assert (N : sd <> ed) by (intros ->; rewrite str_gt_irrefl in G; discriminate).
  simpl. apply String.eqb_neq in N. now rewrite N, G.
Qed.

Lemma adjustRange_keep (line : Row) (sd st ed et : string) :
  cell line 0 = JStr sd -> cell line 1 = JStr st ->
  cell line 2 = JStr ed -> cell line 3 = JStr et ->
  sd <> ed -> str_gt sd ed = false ->
  adjustRange line = (JStr sd, JStr st, JStr ed, JStr et).
Proof.
  intros E0 E1 E2 E3 N G. unfold adjustRange. rewrite E0, E1, E2, E3.
  simpl. apply String.eqb_neq in N. now rewrite N, G.
Qed.

(** Two empty times stay empty, whatever lines 173-186 do to the dates. *)
Lemma adjustRange_allDay (line : Row) :
  cell line 1 = JStr "" -> cell line 3 = JStr "" ->
  adjustRange line =
    if gt (cell line 0) (cell line 2)
    then (cell line 2, JStr "", cell line 0, JStr "")
    else (cell line 0, JStr "", cell line 2, JStr "").
Proof.
  intros E1 E3. unfold adjustRange. rewrite E1, E3.
  destruct (strict_eq (cell line 0) (cell line 2)) eqn:E.
  - apply strict_eq_true in E. rewrite E. simpl.
    destruct (cell line 2) as [| |s]; simpl; try reflexivity.
    now rewrite str_gt_irrefl.
  - simpl. reflexivity.
Qed.

End Normalizer.

(** ** The loop over the records *)

Section RowLoop.

Context {H : Host}.

(** Whatever the bodies of other records do, the loop pushes the event of
    each record, from the second one on, whose body completes normally. *)
Lemma forEachLine_events (body : Row -> Completion Event) (lines : list Row) :
  forall (i : nat) (acc : Parsed),
    newEvents (forEachLine body i lines acc) =
      (newEvents acc
       ++ successes body (if Nat.eqb i 0 then tl lines else lines))%list.
Proof.
  induction lines as [|line rest IH]; intros i acc; simpl.
  - destruct (Nat.eqb i 0); simpl; now rewrite app_nil_r.
  - rewrite IH. simpl Nat.eqb. destruct (Nat.eqb i 0); simpl.
    + reflexivity.
    + destruct (body line); simpl.
      * now rewrite <- app_assoc.
      * reflexivity.
Qed.

Lemma successes_tryNormalize (lines : list Row) :
  successes tryNormalize lines = map normalizeRow lines.
Proof.
  induction lines as [|l ls IH]; simpl; [reflexivity|]. now rewrite IH.
Qed.

(** Every record after the header yields an event, in order. *)
Lemma parseRows_events (lines : list Row) :
  newEvents (parseRows lines) = map normalizeRow (tl lines).
Proof.
  unfold parseRows. rewrite forEachLine_events. simpl.
  apply successes_tryNormalize.
Qed.

(** The [catch] clause is never entered. *)
Lemma parseRows_caught (lines : list Row) : caught (parseRows lines) = [].
Proof.
  unfold parseRows.
  assert (G : forall ls i acc, caught acc = [] ->
              caught (forEachLine tryNormalize i ls acc) = []).
  { induction ls as [|l ls IH]; intros i acc E; simpl; [exact E|].
    apply IH. now destruct (Nat.eqb i 0). }
  now apply G.
Qed.

End RowLoop.

(** ** The calendar of the executable host *)

Module CalendarFacts.
Import Calendar Text Checks FixedOffset.

Ltac dlia := Z.div_mod_to_equations; lia.

Lemma allFrom_spec (P : Z -> bool) (count : nat) :
  forall z, allFrom P count z = true ->
  forall k, z <= k < z + Z.of_nat count -> P k = true.
Proof.
  induction count as [|c IH]; intros z A k R; [lia|].
  simpl in A. apply andb_true_iff in A. destruct A as [Pz A].
  destruct (Z.eq_dec k z) as [->|N]; [exact Pz|].
  apply (IH (z + 1) A). lia.
Qed.

(** The calendar repeats every 400 years, which are 146097 days. *)
Lemma dayFromYear_shift (y e : Z) :
  dayFromYear (y + 400 * e) = dayFromYear y + 146097 * e.
Proof. unfold dayFromYear. dlia. Qed.

Lemma isLeap_shift (y e : Z) : isLeap (y + 400 * e) = isLeap y.
Proof.
  unfold isLeap.
  replace ((y + 400 * e) mod 4) with (y mod 4) by dlia.
  replace ((y + 400 * e) mod 100) with (y mod 100) by dlia.
  replace ((y + 400 * e) mod 400) with (y mod 400) by dlia.
  reflexivity.
Qed.

(** Every year is as [yearOK] says: the years 0 to 399 by computation,
    the others by the period. *)
Lemma yearOK_all (y : Z) : yearOK y = true.
Proof.
  assert (E : y = y mod 400 + 400 * (y / 400)) by dlia.
  assert (R : 0 <= y mod 400 < 400) by dlia.
  set (y0 := y mod 400) in *. set (e := y / 400) in *.
  assert (C : yearOK y0 = true).
  { apply (allFrom_spec yearOK (Z.to_nat 400) 0);
      [vm_compute; reflexivity | lia]. }
  unfold yearOK in *. rewrite E.
  replace (y0 + 400 * e + 1) with (y0 + 1 + 400 * e) by lia.
  replace (y0 + 400 * e + 2) with (y0 + 2 + 400 * e) by lia.
  replace (y0 + 400 * e - 1) with (y0 - 1 + 400 * e) by lia.
  rewrite !dayFromYear_shift, isLeap_shift.
  rewrite !andb_true_iff, !Z.leb_le, !Z.eqb_eq in *. lia.
Qed.

Lemma dayFromYear_next (y : Z) :
  dayFromYear (y + 1) = dayFromYear y + (if isLeap y then 366 else 365).
Proof.
  pose proof (yearOK_all y) as C. unfold yearOK in C.
  rewrite !andb_true_iff, Z.eqb_eq in C. tauto.
Qed.

(** [yearFromDay] is the year that contains the day. *)
Lemma yearFromDay_spec (day : Z) :
  dayFromYear (yearFromDay day) <= day < dayFromYear (yearFromDay day + 1).
Proof.
  unfold yearFromDay. set (y := 1970 + 400 * day / 146097).
  assert (B : 146097 * (y - 1970) <= 400 * day < 146097 * (y - 1970) + 146097)
    by (subst y; dlia).
  pose proof (yearOK_all y) as C. unfold yearOK in C.
  rewrite !andb_true_iff, !Z.leb_le, Z.eqb_eq in C.
  destruct (Z.leb_spec (dayFromYear (y + 1)) day).
  - split; [lia|]. replace (y + 1 + 1) with (y + 2) by lia. lia.
  - destruct (Z.ltb_spec day (dayFromYear y)).
    + replace (y - 1 + 1) with y by lia. split; lia.
    + lia.
Qed.

(** Evaluate the tables of the months where the month is known. *)
Ltac table :=
  repeat match goal with
         | |- context [Zpos ?a + Zpos ?b] =>
             let v := eval vm_compute in (Zpos a + Zpos b) in
             change (Zpos a + Zpos b) with v
         end;
  repeat match goal with
         | |- context [daysBeforeMonth ?l (Zpos ?m)] =>
             let v := eval vm_compute in (daysBeforeMonth l (Zpos m)) in
             change (daysBeforeMonth l (Zpos m)) with v
         | |- context [daysInMonth ?l (Zpos ?m)] =>
             let v := eval vm_compute in (daysInMonth l (Zpos m)) in
             change (daysInMonth l (Zpos m)) with v
         | X : context [daysBeforeMonth ?l (Zpos ?m)] |- _ =>
             let v := eval vm_compute in (daysBeforeMonth l (Zpos m)) in
             change (daysBeforeMonth l (Zpos m)) with v in X
         | X : context [daysInMonth ?l (Zpos ?m)] |- _ =>
             let v := eval vm_compute in (daysInMonth l (Zpos m)) in
             change (daysInMonth l (Zpos m)) with v in X
         end.

(** [civilFromDay] gives a date of the calendar, and [makeDay] leads back
    to the day number. *)
Lemma makeDay_civilFromDay (z : Z) :
  let '(y, m, d) := civilFromDay z in
  validDate y m d = true /\ makeDay y m d = z.
Proof.
  unfold civilFromDay. cbv zeta.
  pose proof (yearFromDay_spec z) as B.
  rewrite dayFromYear_next in B.
  set (y := yearFromDay z) in *.
  set (w := z - dayFromYear y).
  assert (W : 0 <= w < (if isLeap y then 366 else 365)) by (subst w; lia).
  split; [|unfold makeDay; subst w; lia].
  unfold validDate, monthFromDay.
  destruct (isLeap y); cbv beta iota zeta;
    repeat match goal with
           | |- context [if ?a <? ?b then _ else _] =>
               destruct (Z.ltb_spec a b)
           end;
    repeat (apply andb_true_iff; split); try reflexivity;
    table; apply Z.leb_le; lia.
Qed.

Lemma dayFromYear_mono (y1 y2 : Z) :
  y1 <= y2 -> dayFromYear y1 <= dayFromYear y2.
Proof. unfold dayFromYear. intro L. dlia. Qed.

Lemma month_cases (m : Z) :
  1 <= m <= 12 ->
  m = 1 \/ m = 2 \/ m = 3 \/ m = 4 \/ m = 5 \/ m = 6 \/ m = 7 \/ m = 8
  \/ m = 9 \/ m = 10 \/ m = 11 \/ m = 12.
Proof. lia. Qed.

Lemma validDate_bounds (y m d : Z) :
  validDate y m d = true ->
  1 <= m <= 12 /\ 1 <= d <= daysInMonth (isLeap y) m.
Proof. unfold validDate. rewrite !andb_true_iff. lia. Qed.

Lemma daysInMonth_bounds (leap : bool) (m : Z) :
  28 <= daysInMonth leap m <= 31.
Proof.
  unfold daysInMonth. destruct leap;
    repeat match goal with
           | |- context [if ?b then _ else _] => destruct b
           end; lia.
Qed.

Ltac months m Hm :=
  destruct (month_cases m Hm)
    as [->|[->|[->|[->|[->|[->|[->|[->|[->|[->|[->| ->]]]]]]]]]]].

Lemma dayInYear_bound (leap : bool) (m d : Z) :
  1 <= m <= 12 -> 1 <= d <= daysInMonth leap m ->
  0 <= daysBeforeMonth leap m + d - 1 < (if leap then 366 else 365).
Proof. intros Hm Hd. months m Hm; destruct leap; table; lia. Qed.

Lemma dayInYear_lt (leap : bool) (m d m' d' : Z) :
  1 <= m <= 12 -> 1 <= d <= daysInMonth leap m ->
  1 <= m' <= 12 -> 1 <= d' <= daysInMonth leap m' ->
  m < m' -> daysBeforeMonth leap m + d < daysBeforeMonth leap m' + d'.
Proof.
  intros Hm Hd Hm' Hd' L.
  months m Hm; months m' Hm'; try lia; destruct leap; table; lia.
Qed.

(** Later dates have greater day numbers. *)
Lemma makeDay_lt (y m d y' m' d' : Z) :
  validDate y m d = true -> validDate y' m' d' = true ->
  (y < y' \/ (y = y' /\ (m < m' \/ (m = m' /\ d < d')))) ->
  makeDay y m d < makeDay y' m' d'.
Proof.
  intros V V' L. apply validDate_bounds in V, V'.
  destruct V as [Hm Hd], V' as [Hm' Hd']. unfold makeDay.
  destruct L as [L|[-> [L|[-> L]]]].
  - pose proof (dayInYear_bound _ _ _ Hm Hd).
    pose proof (dayInYear_bound _ _ _ Hm' Hd').
    pose proof (dayFromYear_next y).
    pose proof (dayFromYear_mono (y + 1) y' ltac:(lia)).
    destruct (isLeap y), (isLeap y'); lia.
  - pose proof (dayInYear_lt _ _ _ _ _ Hm Hd Hm' Hd' L). lia.
  - lia.
Qed.

Lemma makeDay_inj (y m d y' m' d' : Z) :
  validDate y m d = true -> validDate y' m' d' = true ->
  makeDay y m d = makeDay y' m' d' -> (y, m, d) = (y', m', d').
Proof.
  intros V V' E.
  destruct (Z.lt_trichotomy y y') as [L|[->|L]].
  - pose proof (makeDay_lt _ _ _ _ _ _ V V' (or_introl L)). lia.
  - destruct (Z.lt_trichotomy m m') as [Lm|[->|Lm]].
    + pose proof (makeDay_lt _ _ _ _ _ _ V V'
                    (or_intror (conj eq_refl (or_introl Lm)))). lia.
    + unfold makeDay in E. f_equal. lia.
    + pose proof (makeDay_lt _ _ _ _ _ _ V' V
                    (or_intror (conj eq_refl (or_introl Lm)))). lia.
  - pose proof (makeDay_lt _ _ _ _ _ _ V' V (or_introl L)). lia.
Qed.

(** The date of the day number of a date is that date. *)
Lemma civilFromDay_makeDay (y m d : Z) :
  validDate y m d = true -> civilFromDay (makeDay y m d) = (y, m, d).
Proof.
  intro V. pose proof (makeDay_civilFromDay (makeDay y m d)) as R.
  destruct (civilFromDay (makeDay y m d)) as [[y' m'] d'].
  destruct R as [V' E]. now apply makeDay_inj.
Qed.

Lemma nextDay_spec (y m d : Z) :
  validDate y m d = true ->
  let '(y', m', d') := nextDay (y, m, d) in
  validDate y' m' d' = true /\ makeDay y' m' d' = makeDay y m d + 1.
Proof.
  intro V. pose proof (validDate_bounds _ _ _ V) as [Hm Hd].
  unfold nextDay.
  destruct (Z.ltb_spec d (daysInMonth (isLeap y) m)).
  - split; [|unfold makeDay; lia].
    unfold validDate. rewrite !andb_true_iff, !Z.leb_le. lia.
  - destruct (Z.ltb_spec m 12).
    + split.
      * unfold validDate. rewrite !andb_true_iff, !Z.leb_le.
        pose proof (daysInMonth_bounds (isLeap y) (m + 1)). lia.
      * unfold makeDay.
        assert (d = daysInMonth (isLeap y) m) by lia. subst d.
        months m Hm; try lia; destruct (isLeap y); table; lia.
    + assert (m = 12) by lia. subst m.
      split; [reflexivity|].
      unfold makeDay. rewrite dayFromYear_next.
      assert (d = 31) by (table; lia). subst d.
      destruct (isLeap y); table; lia.
Qed.

(** The day after a date is the next date of the calendar. *)
Lemma civilFromDay_next (y m d : Z) :
  validDate y m d = true ->
  civilFromDay (makeDay y m d + 1) = nextDay (y, m, d).
Proof.
  intro V. pose proof (nextDay_spec y m d V) as N.
  destruct (nextDay (y, m, d)) as [[y' m'] d']. destruct N as [V' E].
  rewrite <- E. now apply civilFromDay_makeDay.
Qed.

(** *** Reading back what was written *)

Lemma splitOn_free (sep : ascii) (s r : string) :
  freeOf sep s = true ->
  splitOn sep (s ++ String sep r) = s :: splitOn sep r.
Proof.
  induction s as [|c s IH]; simpl; intro F.
  - now rewrite Ascii.eqb_refl.
  - apply andb_true_iff in F. destruct F as [N F].
    apply negb_true_iff in N. rewrite N, IH by exact F. reflexivity.
Qed.

Lemma splitOn_free_end (sep : ascii) (s : string) :
  freeOf sep s = true -> splitOn sep s = [s].
Proof.
  induction s as [|c s IH]; simpl; intro F; [reflexivity|].
  apply andb_true_iff in F. destruct F as [N F].
  apply negb_true_iff in N. rewrite N, IH by exact F. reflexivity.
Qed.

Lemma cutAt_free (sep : ascii) (s r : string) :
  freeOf sep s = true -> cutAt sep (s ++ String sep r) = Some (s, r).
Proof.
  induction s as [|c s IH]; simpl; intro F.
  - now rewrite Ascii.eqb_refl.
  - apply andb_true_iff in F. destruct F as [N F].
    apply negb_true_iff in N. rewrite N, IH by exact F. reflexivity.
Qed.

Lemma cutAt_free_none (sep : ascii) (s : string) :
  freeOf sep s = true -> cutAt sep s = None.
Proof.
  induction s as [|c s IH]; simpl; intro F; [reflexivity|].
  apply andb_true_iff in F. destruct F as [N F].
  apply negb_true_iff in N. rewrite N, IH by exact F. reflexivity.
Qed.

Lemma freeOf_app (c : ascii) (s r : string) :
  freeOf c (s ++ r) = freeOf c s && freeOf c r.
Proof.
  induction s as [|x s IH]; simpl; [reflexivity|].
  now rewrite IH, andb_assoc.
Qed.

Lemma digitsOK_spec (w : nat) (n : Z) :
  digitsOK w n = true ->
  fixedNumber w (zeroFill n w false) = Some n
  /\ freeOf "-" (zeroFill n w false) = true
  /\ freeOf " " (zeroFill n w false) = true
  /\ freeOf "T" (zeroFill n w false) = true.
Proof.
  unfold digitsOK, plain, optEq. rewrite !andb_true_iff.
  intros [N [[F1 F2] F3]].
  destruct (fixedNumber w _) as [x|]; [|discriminate].
  apply Z.eqb_eq in N. subst. auto.
Qed.

(** A year of four digits. *)
Lemma year_text (y : Z) : 1000 <= y <= 9999 -> digitsOK 4 y = true.
Proof.
  intro R. apply (allFrom_spec (digitsOK 4) (Z.to_nat 9000) 1000);
    [vm_compute; reflexivity | lia].
Qed.

(** A month, day, hour, minute or second of two digits. *)
Lemma two_text (n : Z) : 0 <= n <= 99 -> digitsOK 2 n = true.
Proof.
  intro R. apply (allFrom_spec (digitsOK 2) (Z.to_nat 100) 0);
    [vm_compute; reflexivity | lia].
Qed.

Lemma isoDate_ymdText (y m d : Z) :
  1000 <= y <= 9999 -> 1 <= m <= 12 -> 1 <= d <= 31 ->
  isoDate (ymdText y m d) = Some (y, m, d).
Proof.
  intros Ry Rm Rd.
  destruct (digitsOK_spec _ _ (year_text y Ry)) as (Ny & Py & _).
  destruct (digitsOK_spec _ _ (two_text m ltac:(lia))) as (Nm & Pm & _).
  destruct (digitsOK_spec _ _ (two_text d ltac:(lia))) as (Nd & Pd & _).
  unfold isoDate, ymdText. simpl append.
  rewrite splitOn_free by exact Py. rewrite splitOn_free by exact Pm.
  rewrite splitOn_free_end by exact Pd.
  rewrite Ny, Nm, Nd. unfold checkYMD.
  replace (1000 <=? y) with true by lia.
  replace (1 <=? m) with true by lia.
  replace (m <=? 12) with true by lia.
  replace (1 <=? d) with true by lia.
  replace (d <=? 31) with true by lia.
  reflexivity.
Qed.

Lemma ymdText_free (y m d : Z) (c : ascii) :
  1000 <= y <= 9999 -> 1 <= m <= 12 -> 1 <= d <= 31 ->
  c = " "%char \/ c = "T"%char -> freeOf c (ymdText y m d) = true.
Proof.
  intros Ry Rm Rd C.
  destruct (digitsOK_spec _ _ (year_text y Ry)) as (_ & _ & Sy & Ty).
  destruct (digitsOK_spec _ _ (two_text m ltac:(lia))) as (_ & _ & Sm & Tm).
  destruct (digitsOK_spec _ _ (two_text d ltac:(lia))) as (_ & _ & Sd & Td).
  unfold ymdText. rewrite !freeOf_app.
  destruct C as [-> | ->]; simpl; rewrite !andb_true_iff; tauto.
Qed.

(** A date alone is midnight UTC. *)
Lemma parse_date_alone (tz y m d : Z) :
  1000 <= y <= 9999 -> 1 <= m <= 12 -> 1 <= d <= 31 ->
  parse tz (ymdText y m d) = Some (makeDay y m d * msPerDay).
Proof.
  intros Ry Rm Rd. unfold parse.
  rewrite !cutAt_free_none by (apply ymdText_free; auto).
  rewrite isoDate_ymdText by assumption. unfold utcTime.
  now rewrite Z.add_0_r.
Qed.

(** A date, a space and a time of the day are that time of that day on
    the local clock. *)
Lemma parse_local (tz y m d : Z) (time : string) (ms : Z) :
  1000 <= y <= 9999 -> 1 <= m <= 12 -> 1 <= d <= 31 ->
  freeOf "T" time = true -> clockTime time = Some ms ->
  parse tz (ymdText y m d ++ " " ++ time) = Some (localTime tz (y, m, d) ms).
Proof.
  intros Ry Rm Rd Ft Ct. unfold parse.
  rewrite cutAt_free_none.
  2:{ rewrite freeOf_app, (ymdText_free y m d "T") by auto.
      simpl. exact Ft. }
  change (" " ++ time) with (String " " time).
  rewrite cutAt_free by (apply ymdText_free; auto).
  now rewrite isoDate_ymdText, Ct.
Qed.

Lemma ymdString_local (tz y m d : Z) :
  validDate y m d = true ->
  ymdString tz (localTime tz (y, m, d) 0) = ymdText y m d.
Proof.
  intro V. unfold ymdString, localTime, utcTime.
  replace ((makeDay y m d * msPerDay + 0 - tz * 60000 + tz * 60000) / msPerDay)
    with (makeDay y m d) by (unfold msPerDay; dlia).
  now rewrite civilFromDay_makeDay.
Qed.

Lemma ymdString_local_next (tz y m d : Z) :
  validDate y m d = true ->
  ymdString tz (localTime tz (y, m, d) 0 + msPerDay)
  = let '(y', m', d') := nextDay (y, m, d) in ymdText y' m' d'.
Proof.
  intro V. unfold ymdString, localTime, utcTime.
  replace ((makeDay y m d * msPerDay + 0 - tz * 60000 + msPerDay + tz * 60000)
           / msPerDay)
    with (makeDay y m d + 1) by (unfold msPerDay; dlia).
  now rewrite civilFromDay_next.
Qed.

(** Two equal dates and no times: the event runs from that date to the
    next date of the calendar. *)
Lemma allDay_sameDate (tz y m d : Z) (line : Row) :
  1000 <= y <= 9999 -> validDate y m d = true ->
  cell line 0 = JStr (ymdText y m d) -> cell line 1 = JStr "" ->
  cell line 2 = JStr (ymdText y m d) -> cell line 3 = JStr "" ->
  start (@normalizeRow (host tz) line) = dateOnly (ymdText y m d)
  /\ end_ (@normalizeRow (host tz) line)
     = dateOnly (let '(y', m', d') := nextDay (y, m, d) in ymdText y' m' d').
Proof.
  intros Ry V E0 E1 E2 E3.
  pose proof (validDate_bounds _ _ _ V) as [Rm Rd].
  pose proof (daysInMonth_bounds (isLeap y) m) as Bd.
  unfold normalizeRow. rewrite (adjustRange_allDay line E1 E3), E0, E2.
  simpl gt. rewrite str_gt_irrefl. simpl to_string.
  cbn [strict_eq String.eqb andb].
  change (@dateParse (host tz)) with (parse tz).
  rewrite (parse_local tz y m d "" 0) by (try reflexivity; lia).
  cbn [isSameOrAfter]. rewrite Z.leb_refl.
  cbn [cloneAddDay format start end_].
  change (@addOneDay (host tz)) with plusDay. unfold plusDay.
  cbn [format].
  change (@formatYMD (host tz)) with (ymdString tz).
  now rewrite ymdString_local, ymdString_local_next.
Qed.

End CalendarFacts.

(** ** Normalisation: what the records become *)

(** C9.  Every event the normaliser builds has a [start] and an [end] of
    the same variant: both carry [date] and no [dateTime], or both carry
    [dateTime] and no [date].  This holds for the event of each record and
    so for every element of [newEvents]. *)
Theorem C9_start_end_same_variant (H : Host) :
  (forall line : Row, sameVariant (normalizeRow line))
  /\ (forall lines : list Row, Forall sameVariant (newEvents (parseRows lines))).
Proof.
  split; [exact normalizeRow_variant|].
  intro lines. rewrite parseRows_events. apply Forall_map, Forall_forall.
  intros line _. apply normalizeRow_variant.
Qed.

(** C7.  A record with equal start and end dates, a start time and no end
    time becomes a timed event: its start is parsed from the date and the
    start time, its end from the same date and "23:59:59".  On a host at a
    fixed offset, when the date is a date of the calendar written
    YYYY-MM-DD, the end is the instant at which the local clock shows
    23:59:59 on that date.  The record of the scenario becomes, on every
    host, an event that ends at the instant of "2024-01-10 23:59:59" and is
    called "[会議] Planning"; in Japan its instants are 05:00:00 and 14:59:59
    UTC. *)
Theorem C7_end_of_day_default :
  (forall (H : Host) (line : Row) (sd st : string),
      cell line 0 = JStr sd -> cell line 1 = JStr st ->
      cell line 2 = JStr sd -> cell line 3 = JStr "" -> st <> "" ->
      start (normalizeRow line)
        = instant (toISOString (dateParse (sd ++ " " ++ st)))
      /\ end_ (normalizeRow line)
        = instant (toISOString (dateParse (sd ++ " " ++ "23:59:59"))))
  /\ (forall (tz y m d : Z) (line : Row) (st : string),
        1000 <= y <= 9999 -> Calendar.validDate y m d = true ->
        cell line 0 = JStr (FixedOffset.ymdText y m d) ->
        cell line 1 = JStr st ->
        cell line 2 = JStr (FixedOffset.ymdText y m d) ->
        cell line 3 = JStr "" -> st <> "" ->
        end_ (@normalizeRow (FixedOffset.host tz) line)
        = instant (JStr (FixedOffset.isoText
                           (FixedOffset.localTime tz (y, m, d)
                              (Calendar.makeTime 23 59 59 0)))))
  /\ (forall H : Host,
        normalizeRow Samples.planning
        = mkEvent (instant (toISOString (dateParse "2024-01-10 14:00")))
                  (instant (toISOString (dateParse "2024-01-10 23:59:59")))
                  (JStr "Room A") (JStr "[会議] Planning") (JStr "notes")
                  JUndefined)
  /\ @normalizeRow FixedOffset.jst Samples.planning
      = mkEvent (instant (JStr "2024-01-10T05:00:00.000Z"))
                (instant (JStr "2024-01-10T14:59:59.000Z"))
                (JStr "Room A") (JStr "[会議] Planning") (JStr "notes")
                JUndefined.
Proof.
  assert (G : forall (H : Host) (line : Row) (sd st : string),
      cell line 0 = JStr sd -> cell line 1 = JStr st ->
      cell line 2 = JStr sd -> cell line 3 = JStr "" -> st <> "" ->
      start (normalizeRow line)
        = instant (toISOString (dateParse (sd ++ " " ++ st)))
      /\ end_ (normalizeRow line)
        = instant (toISOString (dateParse (sd ++ " " ++ "23:59:59")))).
  { intros H line sd st E0 E1 E2 E3 N.
    unfold normalizeRow. rewrite (adjustRange_endOfDay line sd st) by assumption.
    simpl. apply String.eqb_neq in N. rewrite N. simpl. split; reflexivity. }
  split; [exact G|]. split; [|split].
  - intros tz y m d line st Ry V E0 E1 E2 E3 N.
    destruct (G (FixedOffset.host tz) line _ st E0 E1 E2 E3 N) as [_ ->].
    pose proof (CalendarFacts.validDate_bounds _ _ _ V) as [Rm Rd].
    pose proof (CalendarFacts.daysInMonth_bounds (Calendar.isLeap y) m) as Bd.
    change (@dateParse (FixedOffset.host tz)) with (FixedOffset.parse tz).
    rewrite (CalendarFacts.parse_local tz y m d "23:59:59"
               (Calendar.makeTime 23 59 59 0))
      by (try reflexivity; lia).
    reflexivity.
  - intro H. reflexivity.
  - vm_compute. reflexivity.
Qed.

Lemma C7_end_of_day_default_witness :
  cell Samples.planning 0 = JStr "2024-01-10"
  /\ "14:00" <> ""
  /\ end_ (@normalizeRow FixedOffset.jst Samples.planning)
     = instant (@toISOString FixedOffset.jst (@dateParse FixedOffset.jst ("2024-01-10" ++ " " ++ "23:59:59"))).
Proof.
  split; [reflexivity|]. split; [discriminate|].
  apply (proj1 C7_end_of_day_default FixedOffset.jst Samples.planning "2024-01-10" "14:00");
    try reflexivity; discriminate.
Defined.

(** C10, as stated: a record with different dates, a start time and no end
    time would always end at the instant parsed from its end date and the
    empty time.  The record [backwards] (12 January 14:00 to 10 January)
    ends at the instant of its start date and start time instead, because
    the reversed range is swapped first. *)
Lemma C10_counterexample :
  cell Samples.backwards 0 = JStr "2024-01-12"
  /\ cell Samples.backwards 1 = JStr "14:00"
  /\ cell Samples.backwards 2 = JStr "2024-01-10"
  /\ cell Samples.backwards 3 = JStr ""
  /\ end_ (@normalizeRow FixedOffset.jst Samples.backwards)
     = instant (JStr "2024-01-12T05:00:00.000Z")
  /\ end_ (@normalizeRow FixedOffset.jst Samples.backwards)
     <> instant (@toISOString FixedOffset.jst
                   (@dateParse FixedOffset.jst ("2024-01-10" ++ " " ++ ""))).
Proof.
  repeat split; try reflexivity. vm_compute. discriminate.
Qed.

(** C10, amended.  For a record with different dates, a start time and no
    end time, "23:59:59" is never put in: when the start date is not
    greater than the end date the event starts at the instant of the start
    date and time and ends at the instant parsed from the end date and the
    empty time; when the start date is greater, the two are swapped, so the
    event starts at the instant parsed from the end date and the empty
    time and ends at the instant of the start date and time.  Both events
    are timed. *)
Theorem C10_no_default_across_days
  (H : Host) (line : Row) (sd st ed : string) :
  cell line 0 = JStr sd -> cell line 1 = JStr st ->
  cell line 2 = JStr ed -> cell line 3 = JStr "" ->
  sd <> ed -> st <> "" ->
  let fromStart := instant (toISOString (dateParse (sd ++ " " ++ st))) in
  let fromEnd := instant (toISOString (dateParse (ed ++ " " ++ ""))) in
  if str_gt sd ed
  then start (normalizeRow line) = fromEnd /\ end_ (normalizeRow line) = fromStart
  else start (normalizeRow line) = fromStart /\ end_ (normalizeRow line) = fromEnd.
Proof.
  intros E0 E1 E2 E3 Nd Nt fromStart fromEnd. subst fromStart fromEnd.
  apply String.eqb_neq in Nt.
  destruct (str_gt sd ed) eqn:G; unfold normalizeRow.
  - rewrite (adjustRange_swap line sd st ed "") by assumption.
    simpl. rewrite Nt. split; reflexivity.
  - rewrite (adjustRange_keep line sd st ed "") by assumption.
    simpl. rewrite Nt. simpl. split; reflexivity.
Qed.

Lemma C10_no_default_across_days_witness :
  "2024-01-10" <> "2024-01-12"
  /\ "14:00" <> ""
  /\ start (@normalizeRow FixedOffset.jst Samples.openEnded)
     = instant (@toISOString FixedOffset.jst
                  (@dateParse FixedOffset.jst ("2024-01-10" ++ " " ++ "14:00")))
  /\ end_ (@normalizeRow FixedOffset.jst Samples.openEnded)
     = instant (@toISOString FixedOffset.jst
                  (@dateParse FixedOffset.jst ("2024-01-12" ++ " " ++ ""))).
Proof.
  split; [discriminate|]. split; [discriminate|].
  apply (C10_no_default_across_days FixedOffset.jst Samples.openEnded
           "2024-01-10" "14:00" "2024-01-12");
    try reflexivity; discriminate.
Defined.

(** C5.  A record with no start time and no end time becomes an all-day
    event: [start] and [end] are date-only, formatted from the instants
    parsed from the two dates (the smaller date first when the range was
    reversed).  Whenever the parsed start is on or after the parsed end,
    the end is the start plus one day; this is the case when the two dates
    are the same and parse.  On a host at a fixed offset the forced end is
    24 hours after the start; when the two dates are the same date of the
    calendar written YYYY-MM-DD, the event starts on that date and ends on
    the next date of the calendar.  The record of the scenario runs from
    2024-01-10 to 2024-01-11. *)
Theorem C5_all_day_spans_a_day :
  (forall (H : Host) (line : Row),
      cell line 1 = JStr "" -> cell line 3 = JStr "" ->
      let reversed := gt (cell line 0) (cell line 2) in
      let first := if reversed then cell line 2 else cell line 0 in
      let last := if reversed then cell line 0 else cell line 2 in
      let s := dateParse (to_string first ++ " " ++ "") in
      let e := dateParse (to_string last ++ " " ++ "") in
      let event := normalizeRow line in
      isDateOnly (start event) /\ isDateOnly (end_ event)
      /\ start event = dateOnly (format s)
      /\ end_ event
         = dateOnly (format (if isSameOrAfter s e then cloneAddDay s else e))
      /\ (forall ts te : Z, s = Some ts -> e = Some te -> te <= ts ->
          end_ event = dateOnly (format (addOneDay ts)))
      /\ (forall ts : Z, cell line 0 = cell line 2 -> s = Some ts ->
          end_ event = dateOnly (format (addOneDay ts))))
  /\ (forall tz ts : Z,
        @addOneDay (FixedOffset.host tz) ts = Some (ts + Calendar.msPerDay))
  /\ (forall (tz y m d : Z) (line : Row),
        1000 <= y <= 9999 -> Calendar.validDate y m d = true ->
        cell line 0 = JStr (FixedOffset.ymdText y m d) ->
        cell line 1 = JStr "" ->
        cell line 2 = JStr (FixedOffset.ymdText y m d) ->
        cell line 3 = JStr "" ->
        start (@normalizeRow (FixedOffset.host tz) line)
        = dateOnly (FixedOffset.ymdText y m d)
        /\ end_ (@normalizeRow (FixedOffset.host tz) line)
           = dateOnly (let '(y', m', d') := Calendar.nextDay (y, m, d) in
                       FixedOffset.ymdText y' m' d'))
  /\ @normalizeRow FixedOffset.jst Samples.offsite
     = mkEvent (dateOnly "2024-01-10") (dateOnly "2024-01-11")
               (JStr "HQ") (JStr "Offsite") (JStr "") JUndefined.
Proof.
  split; [|split; [reflexivity | split;
                   [exact CalendarFacts.allDay_sameDate
                   | vm_compute; reflexivity]]].
  intros H line E1 E3 reversed first last s e event.
  assert (Ev : event
               = mkEvent (dateOnly (format s))
                   (dateOnly (format (if isSameOrAfter s e
                                      then cloneAddDay s else e)))
                   (cell line 8) (JStr (buildSummary line)) (cell line 6)
                   JUndefined).
  { subst event s e first last reversed. unfold normalizeRow.
    rewrite (adjustRange_allDay line E1 E3).
    destruct (gt (cell line 0) (cell line 2)); reflexivity. }
  rewrite Ev. simpl.
  assert (Forced : forall ts te, s = Some ts -> e = Some te -> te <= ts ->
            dateOnly (format (if isSameOrAfter s e then cloneAddDay s else e))
            = dateOnly (format (addOneDay ts))).
  { intros ts te -> -> L. simpl.
    destruct (Z.leb_spec te ts); [reflexivity | lia]. }
  repeat split; try (unfold dateOnly; simpl; congruence).
  - exact Forced.
  - intros ts Same Es. apply (Forced ts ts Es); [|lia].
    subst e last first reversed. rewrite <- Es. subst s.
    rewrite Same. now destruct (gt (cell line 2) (cell line 2)).
Qed.

Lemma C5_all_day_spans_a_day_witness :
  cell Samples.offsite 1 = JStr ""
  /\ cell Samples.offsite 3 = JStr ""
  /\ end_ (@normalizeRow FixedOffset.jst Samples.offsite)
     = dateOnly (@format FixedOffset.jst
                   (@addOneDay FixedOffset.jst 1704812400000)).
Proof.
  split; [reflexivity|]. split; [reflexivity|].
  apply (proj1 C5_all_day_spans_a_day FixedOffset.jst Samples.offsite
           eq_refl eq_refl);
    reflexivity.
Defined.


(** An unparseable start does not stop the body: the event is built, with
    "Invalid date" or [null] where the start should be. *)
Lemma normalizeRow_unparseable (H : Host) (line : Row) :
  let '(sd, st, _, _) := adjustRange line in
  dateParse (to_string sd ++ " " ++ to_string st) = None ->
  start (normalizeRow line) = dateOnly "Invalid date"
  \/ start (normalizeRow line) = instant JNull.
Proof.
  unfold normalizeRow.
  destruct (adjustRange line) as [[[sd st] ed] et]. intros ->.
  destruct (strict_eq st (JStr "") && strict_eq et (JStr "")); simpl; auto.
Qed.

(** C4.  The record [undated], whose dates do not parse, is not dropped:
    the loop pushes an event for it, with "Invalid date" as start and end,
    and logs nothing.  On every host the events pushed are those of all
    the records after the header, and the [catch] clause is never
    entered. *)
Theorem C4_unparseable_row_is_emitted :
  @dateParse FixedOffset.jst ("not a date" ++ " " ++ "") = None
  /\ @parseRows FixedOffset.jst [Samples.header; Samples.undated]
     = mkParsed [mkEvent (dateOnly "Invalid date") (dateOnly "Invalid date")
                         (JStr "HQ") (JStr "Offsite") (JStr "") JUndefined]
                []
  /\ (forall (H : Host) (lines : list Row),
        newEvents (parseRows lines) = map normalizeRow (tl lines)
        /\ caught (parseRows lines) = []).
Proof.
  split; [reflexivity|]. split; [vm_compute; reflexivity|].
  intros H lines. split; [apply parseRows_events | apply parseRows_caught].
Qed.

(** C6.  In the record [autumn] the range runs forward, from 1 September
    10:00 to 1 October 11:00, but "2024/9/1" is greater than "2024/10/1" as
    a string, so the pairs are swapped: the event starts on 1 October and
    ends on 1 September, its start after its end. *)
Theorem C6_swap_follows_string_order :
  gt (cell Samples.autumn 0) (cell Samples.autumn 2) = true
  /\ @dateParse FixedOffset.jst ("2024/9/1" ++ " " ++ "10:00") = Some 1725152400000
  /\ @dateParse FixedOffset.jst ("2024/10/1" ++ " " ++ "11:00") = Some 1727748000000
  /\ @normalizeRow FixedOffset.jst Samples.autumn
     = mkEvent (instant (JStr "2024-10-01T02:00:00.000Z"))
               (instant (JStr "2024-09-01T01:00:00.000Z"))
               (JStr "") (JStr "Trip") (JStr "") JUndefined
  /\ start (@normalizeRow FixedOffset.jst Samples.autumn)
     = instant (@toISOString FixedOffset.jst (Some 1727748000000))
  /\ end_ (@normalizeRow FixedOffset.jst Samples.autumn)
     = instant (@toISOString FixedOffset.jst (Some 1725152400000)).
Proof.
  repeat split; vm_compute; reflexivity.
Qed.

(** C8.  A record whose body throws does not stop the loop: for any
    behaviour of the bodies, the event of every later record whose body
    completes normally is in [newEvents].  With the body of the program
    every record after the header completes normally, so the event of
    every later record is in [newEvents], which holds the events of all the
    records after the header in order. *)
Theorem C8_row_failure_is_isolated :
  (forall (body : Row -> Completion Event) (hdr : Row) (before : list Row)
          (bad : Row) (after : list Row) (line : Row) (event : Event),
      In line after -> body line = Normal event ->
      In event (newEvents (forEachLine body 0 (hdr :: before ++ bad :: after)
                             (mkParsed [] []))))
  /\ (forall (H : Host) (hdr : Row) (before : list Row) (bad : Row)
             (after : list Row) (line : Row),
         In line after ->
         In (normalizeRow line)
            (newEvents (parseRows (hdr :: before ++ bad :: after))))
  /\ (forall (H : Host) (lines : list Row),
         newEvents (parseRows lines) = map normalizeRow (tl lines)).
Proof.
  assert (G : forall body hdr before bad after line event,
             In line after -> body line = Normal event ->
             In event (newEvents (forEachLine body 0
                                    (hdr :: before ++ bad :: after)
                                    (mkParsed [] [])))).
  { intros body hdr before bad after line event I E.
    rewrite forEachLine_events. simpl. unfold successes.
    apply in_flat_map. exists line. split.
    - apply in_or_app. right. now right.
    - rewrite E. now left. }
  split; [exact G|]. split.
  - intros H hdr before bad after line I. unfold parseRows.
    now apply G with (line := line).
  - intros H lines. apply parseRows_events.
Qed.

Lemma C8_row_failure_is_isolated_witness :
  In Samples.offsite [Samples.offsite]
  /\ In (@normalizeRow FixedOffset.jst Samples.offsite)
        (newEvents
           (forEachLine
              (fun line => if strict_eq (cell line 0) (JStr "not a date")
                           then Thrown "RangeError: Invalid time value"
                           else @tryNormalize FixedOffset.jst line)
              0 (Samples.header :: [Samples.planning]
                   ++ Samples.undated :: [Samples.offsite])
              (mkParsed [] []))).
Proof.
  split; [now left|].
  apply (proj1 C8_row_failure_is_isolated _ Samples.header [Samples.planning]
           Samples.undated [Samples.offsite] Samples.offsite).
  - now left.
  - reflexivity.
Defined.

(** ** Comparing two events *)

Section Matching.

Context {H : Host}.

Lemma parsed_nonempty (s : string) (t : Z) : dateParse s = Some t -> s <> "".
Proof. intros E ->. rewrite dateParse_empty in E. discriminate. Qed.

Lemma check_true (s1 s2 : string) :
  check (JStr s1) (JStr s2) = true
  <-> exists t, dateParse s1 = Some t /\ dateParse s2 = Some t.
Proof.
  unfold check; simpl. split.
  - destruct (dateParse s1) as [a|], (dateParse s2) as [b|]; try discriminate.
    intro E. apply Z.eqb_eq in E. subst b. now exists a.
  - intros (t & -> & ->). apply Z.eqb_refl.
Qed.

(** Two date-only values: the [date]s decide. *)
Lemma isEqualRef_dates (s1 s2 : string) :
  isEqualRef (dateOnly s1) (dateOnly s2) = true
  <-> exists t, dateParse s1 = Some t /\ dateParse s2 = Some t.
Proof.
  unfold isEqualRef; simpl. rewrite <- check_true. split.
  - destruct ((negb (s1 =? "")%string && negb (s2 =? "")%string)
              && check (JStr s1) (JStr s2)) eqn:E; [|discriminate].
    intros _. now apply andb_true_iff in E.
  - intro C. destruct (proj1 (check_true s1 s2) C) as (t & P1 & P2).
    apply parsed_nonempty, String.eqb_neq in P1, P2.
    now rewrite P1, P2, C.
Qed.

(** Two instants: the [dateTime]s decide. *)
Lemma isEqualRef_instants (s1 s2 : string) :
  isEqualRef (instant (JStr s1)) (instant (JStr s2)) = true
  <-> exists t, dateParse s1 = Some t /\ dateParse s2 = Some t.
Proof.
  unfold isEqualRef; simpl. rewrite <- check_true. split.
  - destruct ((negb (s1 =? "")%string && negb (s2 =? "")%string)
              && check (JStr s1) (JStr s2)) eqn:E; [|discriminate].
    intros _. now apply andb_true_iff in E.
  - intro C. destruct (proj1 (check_true s1 s2) C) as (t & P1 & P2).
    apply parsed_nonempty, String.eqb_neq in P1, P2.
    now rewrite P1, P2, C.
Qed.

(** A date-only value and an instant: neither branch applies. *)
Lemma isEqualRef_mixed (s : string) (v : jsval) :
  isEqualRef (dateOnly s) (instant v) = false
  /\ isEqualRef (instant v) (dateOnly s) = false.
Proof.
  unfold isEqualRef; simpl.
  destruct (s =? "")%string, (truthy v); simpl; split; reflexivity.
Qed.

Lemma isEqualRef_sameValue (r1 r2 : TimeRef) :
  wellFormed r1 -> wellFormed r2 ->
  (isEqualRef r1 r2 = true <-> sameValue r1 r2).
Proof.
  intros W1 W2. split.
  - destruct r1 as [d1 t1], r2 as [d2 t2].
    unfold wellFormed in W1, W2. simpl in W1, W2.
    unfold isEqualRef. simpl.
    destruct (truthy d1 && truthy d2 && check d1 d2) eqn:D.
    + intros _. apply andb_true_iff in D. destruct D as [D C].
      apply andb_true_iff in D. destruct D as [T1 T2].
      apply truthy_JStr in T1, T2.
      destruct T1 as (s1 & -> & _), T2 as (s2 & -> & _).
      destruct W1 as [W1| ->]; [discriminate|].
      destruct W2 as [W2| ->]; [discriminate|].
      apply check_true in C. destruct C as (t & P1 & P2).
      now apply same_dates with t.
    + destruct (truthy t1 && truthy t2 && check t1 t2) eqn:T; [|discriminate].
      intros _. apply andb_true_iff in T. destruct T as [T C].
      apply andb_true_iff in T. destruct T as [T1 T2].
      apply truthy_JStr in T1, T2.
      destruct T1 as (s1 & -> & _), T2 as (s2 & -> & _).
      destruct W1 as [->|W1]; [|discriminate].
      destruct W2 as [->|W2]; [|discriminate].
      apply check_true in C. destruct C as (t & P1 & P2).
      now apply same_instants with t.
  - intro S. destruct S as [s1 s2 t P1 P2 | s1 s2 t P1 P2].
    + apply isEqualRef_dates. now exists t.
    + apply isEqualRef_instants. now exists t.
Qed.

(** The inner loops, entered with [isEqual] false, compute a
    disjunction. *)
Lemma scanOld_existsb (event : Event) (oldEvents : list Event) :
  scanOld event oldEvents false
  = existsb (fun old => occurrenceMatch old event) oldEvents.
Proof.
  induction oldEvents as [|old rest IH]; simpl; [reflexivity|].
  unfold occurrenceMatch at 1.
  destruct (strict_eq (summary old) (summary event)); simpl.
  - destruct (isEqualDate old event); simpl; [reflexivity | exact IH].
  - exact IH.
Qed.

Lemma scanNew_existsb (old : Event) (newEvents : list Event) :
  scanNew old newEvents false
  = existsb (fun event => occurrenceMatch old event) newEvents.
Proof.
  induction newEvents as [|event rest IH]; simpl; [reflexivity|].
  unfold occurrenceMatch at 1.
  destruct (strict_eq (summary old) (summary event)); simpl.
  - destruct (isEqualDate old event); simpl; [reflexivity | exact IH].
  - exact IH.
Qed.

Lemma unmatched_In (matches : Event -> Event -> bool) (xs ys : list Event)
      (x : Event) :
  In x (unmatched matches xs ys)
  <-> In x xs /\ forall y, In y ys -> matches y x = false.
Proof.
  unfold unmatched. rewrite filter_In, negb_true_iff. split.
  - intros [I E]. split; [exact I|]. intros y Iy.
    destruct (matches y x) eqn:M; [|reflexivity].
    assert (X : existsb (fun y => matches y x) ys = true)
      by (apply existsb_exists; now exists y).
    congruence.
  - intros [I A]. split; [exact I|].
    destruct (existsb (fun y => matches y x) ys) eqn:X; [|reflexivity].
    apply existsb_exists in X. destruct X as (y & Iy & M).
    rewrite (A y Iy) in M. discriminate.
Qed.

End Matching.

(** C2.  On events whose [start] and [end] are date-only values or
    instants (objects that do not carry [date] and [dateTime] at once),
    the test of the inner loops holds exactly when the summaries
    are equal, the starts are equal and the ends are equal, where two
    date-only values are equal when their dates parse to the same instant,
    two instants when they parse to the same instant, and a date-only
    value never equals an instant.  The description, the location and the
    id play no part.  On a host at a fixed offset the instant of a date
    written YYYY-MM-DD is midnight UTC of that date. *)
Theorem C2_occurrence_equality (H : Host) (a b : Event) :
  wellFormed (start a) -> wellFormed (start b) ->
  wellFormed (end_ a) -> wellFormed (end_ b) ->
  (occurrenceMatch a b = true <-> sameOccurrence a b)
  /\ (forall (s : string) (v : jsval),
         isEqualRef (dateOnly s) (instant v) = false
         /\ isEqualRef (instant v) (dateOnly s) = false)
  /\ (forall l1 d1 i1 l2 d2 i2 : jsval,
         occurrenceMatch (mkEvent (start a) (end_ a) l1 (summary a) d1 i1)
                         (mkEvent (start b) (end_ b) l2 (summary b) d2 i2)
         = occurrenceMatch a b)
  /\ (forall tz y m d : Z,
         1000 <= y <= 9999 -> 1 <= m <= 12 -> 1 <= d <= 31 ->
         @dateParse (FixedOffset.host tz) (FixedOffset.ymdText y m d)
         = Some (Calendar.makeDay y m d * Calendar.msPerDay)).
Proof.
  intros Wsa Wsb Wea Web. split; [|split; [|split]].
  - unfold occurrenceMatch, sameOccurrence, isEqualDate.
    rewrite <- (isEqualRef_sameValue _ _ Wsa Wsb).
    rewrite <- (isEqualRef_sameValue _ _ Wea Web).
    rewrite <- strict_eq_true.
    destruct (strict_eq (summary a) (summary b)); simpl.
    + rewrite andb_true_iff. tauto.
    + split; [discriminate | tauto].
  - apply isEqualRef_mixed.
  - reflexivity.
  - exact CalendarFacts.parse_date_alone.
Qed.

Lemma C2_occurrence_equality_witness :
  @sameOccurrence FixedOffset.jst Samples.listedPlanning
                  (@normalizeRow FixedOffset.jst Samples.planning).
Proof.
  apply (proj1 (C2_occurrence_equality FixedOffset.jst Samples.listedPlanning
                  (@normalizeRow FixedOffset.jst Samples.planning)
                  (or_introl eq_refl) (or_introl eq_refl)
                  (or_introl eq_refl) (or_introl eq_refl))).
  vm_compute. reflexivity.
Defined.

(** ** The two loops *)

Section Loops.

Context {H : Host}.

Lemma firstFailure_range (oracle : Oracle) (count from k : nat) :
  firstFailure oracle from count = Some k -> (from <= k < from + count)%nat.
Proof.
  revert from. induction count as [|c IH]; intros from; simpl; [discriminate|].
  destruct (oracle from).
  - intro E. apply IH in E. lia.
  - intro E. injection E as <-. lia.
Qed.

Lemma firstFailure_app (oracle : Oracle) (a b from : nat) :
  firstFailure oracle from (a + b)
  = match firstFailure oracle from a with
    | Some k => Some k
    | None => firstFailure oracle (from + a) b
    end.
Proof.
  revert from. induction a as [|a IH]; intro from; simpl.
  - now rewrite Nat.add_0_r.
  - destruct (oracle from); [|reflexivity].
    rewrite IH. now rewrite Nat.add_succ_r.
Qed.

Lemma throughCall_app_within (k : nat) (xs ys : list Obs) :
  (k < List.length (calls xs))%nat ->
  throughCall k (xs ++ ys) = throughCall k xs.
Proof.
  revert k. induction xs as [|[s|a] xs IH]; intros k L; simpl in *.
  - lia.
  - now rewrite IH.
  - destruct k as [|k]; [reflexivity|]. rewrite IH; [reflexivity | lia].
Qed.

Lemma throughCall_app_beyond (k : nat) (xs ys : list Obs) :
  (List.length (calls xs) <= k)%nat ->
  throughCall k (xs ++ ys)
  = (xs ++ throughCall (k - List.length (calls xs)) ys)%list.
Proof.
  revert k. induction xs as [|[s|a] xs IH]; intros k L; simpl in *.
  - now rewrite Nat.sub_0_r.
  - now rewrite IH.
  - destruct k as [|k]; [lia|]. rewrite IH by lia. reflexivity.
Qed.

Lemma calls_app (xs ys : list Obs) :
  calls (xs ++ ys) = (calls xs ++ calls ys)%list.
Proof.
  induction xs as [|[s|a] xs IH]; simpl; [reflexivity | exact IH |].
  now rewrite IH.
Qed.

Lemma calls_throughCall (k : nat) (obs : list Obs) :
  calls (throughCall k obs) = firstn (S k) (calls obs).
Proof.
  revert k. induction obs as [|[s|a] obs IH]; intro k.
  - reflexivity.
  - exact (IH k).
  - destruct k as [|k]; [reflexivity|].
    change (a :: calls (throughCall k obs) = a :: firstn (S k) (calls obs)).
    now rewrite IH.
Qed.

(** Nothing follows the call at which the observations are cut. *)
Lemma throughCall_last (k : nat) (obs : list Obs) :
  (k < List.length (calls obs))%nat ->
  exists (before : list Obs) (a : Action),
    throughCall k obs = (before ++ [Called a])%list
    /\ nth_error (calls obs) k = Some a.
Proof.
  revert k. induction obs as [|[s|a] obs IH]; intros k L; simpl in *.
  - lia.
  - destruct (IH k L) as (before & a & E & N).
    exists (Logged s :: before), a. now rewrite E.
  - destruct k as [|k].
    + exists [], a. split; reflexivity.
    + destruct (IH k) as (before & a' & E & N); [lia|].
      exists (Called a :: before), a'. now rewrite E.
Qed.

Lemma calls_insertReports (events : list Event) :
  calls (insertReports events) = map Insert events.
Proof.
  induction events as [|e es IH]; simpl; [reflexivity|]. now rewrite IH.
Qed.

Lemma calls_deleteReports (olds : list Event) :
  calls (deleteReports olds) = map (fun old => Delete (id old)) olds.
Proof.
  induction olds as [|o os IH]; simpl; [reflexivity|]. now rewrite IH.
Qed.

Lemma calls_fullRun (source destination : list Event) :
  calls (fullRun source destination) = planned source destination.
Proof.
  unfold fullRun, planned. simpl.
  rewrite calls_app, calls_insertReports. simpl.
  rewrite calls_app, calls_deleteReports. simpl.
  now rewrite app_nil_r.
Qed.

(** The insert loop, started at call number [n] with [insertedCount] at
    [c]: it runs through the unmatched events of [todo] up to the first
    call that fails. *)
Lemma insertLoop_run (oracle : Oracle) (oldEvents todo : list Event) :
  forall c n : nat,
    insertLoop oldEvents todo c oracle n
    = let events := toInsert todo oldEvents in
      match firstFailure oracle n (List.length events) with
      | None => (insertReports events, (n + List.length events)%nat,
                 Some (c + List.length events)%nat)
      | Some k => (throughCall (k - n) (insertReports events), S k, None)
      end.
Proof.
  unfold toInsert, unmatched.
  induction todo as [|event rest IH]; intros c n; simpl.
  - now rewrite !Nat.add_0_r.
  - rewrite scanOld_existsb.
    destruct (existsb (fun old => occurrenceMatch old event) oldEvents); simpl.
    + apply IH.
    + unfold bind at 1, await. destruct (oracle n).
      * unfold bind at 1, log. rewrite IH. cbv zeta.
        destruct (firstFailure oracle (S n) _) as [k|] eqn:F; simpl.
        -- apply firstFailure_range in F.
           replace (k - n)%nat with (S (k - S n)) by lia. reflexivity.
        -- now rewrite !Nat.add_succ_r.
      * now rewrite Nat.sub_diag.
Qed.

Lemma deleteLoop_run (oracle : Oracle) (newEvents todo : list Event) :
  forall c n : nat,
    deleteLoop newEvents todo c oracle n
    = let olds := toDelete newEvents todo in
      match firstFailure oracle n (List.length olds) with
      | None => (deleteReports olds, (n + List.length olds)%nat,
                 Some (c + List.length olds)%nat)
      | Some k => (throughCall (k - n) (deleteReports olds), S k, None)
      end.
Proof.
  unfold toDelete, unmatched.
  induction todo as [|old rest IH]; intros c n; simpl.
  - now rewrite !Nat.add_0_r.
  - rewrite scanNew_existsb.
    destruct (existsb (fun event => occurrenceMatch old event) newEvents); simpl.
    + apply IH.
    + unfold bind at 1, await. destruct (oracle n).
      * unfold bind at 1, log. rewrite IH. cbv zeta.
        destruct (firstFailure oracle (S n) _) as [k|] eqn:F; simpl.
        -- apply firstFailure_range in F.
           replace (k - n)%nat with (S (k - S n)) by lia. reflexivity.
        -- now rewrite !Nat.add_succ_r.
      * now rewrite Nat.sub_diag.
Qed.

Lemma planned_length (source destination : list Event) :
  List.length (planned source destination)
  = (List.length (toInsert source destination)
     + List.length (toDelete source destination))%nat.
Proof. unfold planned. now rewrite length_app, !length_map. Qed.

(** The whole run: all the observations when no call fails, the
    observations up to the first call that fails otherwise. *)
Lemma sync_run (oracle : Oracle) (source destination : list Event) :
  sync oracle source destination
  = match firstFailure oracle 0 (List.length (planned source destination)) with
    | None => (fullRun source destination, true)
    | Some k => (throughCall k (fullRun source destination), false)
    end.
Proof.
  rewrite planned_length, firstFailure_app.
  unfold sync, syncEvents, fullRun.
  unfold bind at 1, log at 1. unfold bind at 1.
  rewrite insertLoop_run. cbv zeta.
  set (ins := toInsert source destination).
  set (del := toDelete source destination).
  destruct (firstFailure oracle 0 (List.length ins)) as [k|] eqn:Fi.
  - apply firstFailure_range in Fi. simpl.
    rewrite Nat.sub_0_r, throughCall_app_within; [reflexivity|].
    rewrite calls_insertReports, length_map. lia.
  - unfold bind at 1, log at 1. unfold bind at 1, log at 1.
    unfold bind at 1. rewrite deleteLoop_run. cbv zeta. fold del.
    simpl Nat.add.
    destruct (firstFailure oracle (List.length ins) (List.length del))
      as [k|] eqn:Fd.
    + apply firstFailure_range in Fd. simpl.
      rewrite throughCall_app_beyond
        by (rewrite calls_insertReports, length_map; lia).
      rewrite calls_insertReports, length_map. simpl.
      rewrite throughCall_app_within
        by (rewrite calls_deleteReports, length_map; lia).
      reflexivity.
    + reflexivity.
Qed.

End Loops.

(** ** The two loops: what the run does *)

Lemma firstFailure_none (count from : nat) :
  firstFailure (fun _ => true) from count = None.
Proof.
  revert from. induction count as [|c IH]; intro from; simpl; auto.
Qed.

(** C1.  When no call to the calendar fails, the run inserts exactly the
    source events that no destination event matches, in the order of the
    source, then deletes exactly the destination events that no source
    event matches, in the order of the destination, and runs to its end.
    An event of the source and an event of the destination that match are
    neither inserted nor deleted, whatever their descriptions and
    locations. *)
Theorem C1_reconciliation (H : Host) (source destination : list Event) :
  calls (fst (sync (fun _ => true) source destination))
  = (map Insert (toInsert source destination)
     ++ map (fun old => Delete (id old)) (toDelete source destination))%list
  /\ snd (sync (fun _ => true) source destination) = true
  /\ (forall event : Event,
         In event (toInsert source destination)
         <-> In event source
             /\ forall old, In old destination ->
                            occurrenceMatch old event = false)
  /\ (forall old : Event,
         In old (toDelete source destination)
         <-> In old destination
             /\ forall event, In event source ->
                              occurrenceMatch old event = false)
  /\ (forall event old : Event,
         In event source -> In old destination ->
         occurrenceMatch old event = true ->
         ~ In event (toInsert source destination)
         /\ ~ In old (toDelete source destination)).
Proof.
  assert (Ins : forall event : Event,
             In event (toInsert source destination)
             <-> In event source
                 /\ forall old, In old destination ->
                                occurrenceMatch old event = false)
    by (intro event; apply unmatched_In).
  assert (Del : forall old : Event,
             In old (toDelete source destination)
             <-> In old destination
                 /\ forall event, In event source ->
                                  occurrenceMatch old event = false)
    by (intro old; apply unmatched_In).
  rewrite sync_run, firstFailure_none. simpl.
  split; [apply calls_fullRun|]. split; [reflexivity|].
  split; [exact Ins|]. split; [exact Del|].
  intros event old Ie Io M. split; intro I.
  - apply Ins in I. destruct I as [_ A].
    rewrite (A old Io) in M. discriminate.
  - apply Del in I. destruct I as [_ A].
    rewrite (A event Ie) in M. discriminate.
Qed.

Lemma C1_reconciliation_witness :
  let source := [@normalizeRow FixedOffset.jst Samples.offsite;
                 @normalizeRow FixedOffset.jst Samples.planning] in
  let destination := [Samples.listedPlanning; Samples.listedLunch] in
  @occurrenceMatch FixedOffset.jst Samples.listedPlanning
                   (@normalizeRow FixedOffset.jst Samples.planning) = true
  /\ ~ In (@normalizeRow FixedOffset.jst Samples.planning)
          (@toInsert FixedOffset.jst source destination)
  /\ ~ In Samples.listedPlanning
          (@toDelete FixedOffset.jst source destination).
Proof.
  intros source destination. split; [vm_compute; reflexivity|].
  apply (proj2 (proj2 (proj2 (proj2
           (C1_reconciliation FixedOffset.jst source destination))))).
  - right. now left.
  - now left.
  - vm_compute. reflexivity.
Defined.

(** C3, as stated: every insert and delete of the run would be attempted
    even when one of them fails, and every outcome would be reported.
    With two events to insert and a first call that fails, the second
    insert is never attempted, the run does not reach its end, and nothing
    but the opening line is logged. *)
Lemma C3_counterexample :
  @planned FixedOffset.jst
     [@normalizeRow FixedOffset.jst Samples.planning;
      @normalizeRow FixedOffset.jst Samples.offsite] []
  = [Insert (@normalizeRow FixedOffset.jst Samples.planning);
     Insert (@normalizeRow FixedOffset.jst Samples.offsite)]
  /\ @sync FixedOffset.jst Samples.firstCallFails
        [@normalizeRow FixedOffset.jst Samples.planning;
         @normalizeRow FixedOffset.jst Samples.offsite] []
     = ([Logged (">>>> Inserting new events..." ++ nl);
         Called (Insert (@normalizeRow FixedOffset.jst Samples.planning))],
        false)
  /\ ~ In (Insert (@normalizeRow FixedOffset.jst Samples.offsite))
          (calls (fst (@sync FixedOffset.jst Samples.firstCallFails
                         [@normalizeRow FixedOffset.jst Samples.planning;
                          @normalizeRow FixedOffset.jst Samples.offsite] []))).
Proof.
  split; [vm_compute; reflexivity|]. split; [vm_compute; reflexivity|].
  vm_compute. intros [E|[]]. discriminate.
Qed.

(** C3, amended.  The inserts and deletes are attempted in order, each
    successful one followed by its own line in the log.  When no call
    fails the run makes all the planned calls and reaches its end.  When
    call number [k] is the first to fail, the observations are those of the
    full run up to that call and no further: the calls made are the first
    [k + 1] planned ones, the failed call is the last thing observed (no
    line is logged for it) and the run does not reach its end. *)
Theorem C3_first_failure_stops_the_run
  (H : Host) (oracle : Oracle) (source destination : list Event) :
  let obs := fst (sync oracle source destination) in
  let finished := snd (sync oracle source destination) in
  match firstFailure oracle 0 (List.length (planned source destination)) with
  | None =>
      obs = fullRun source destination
      /\ calls obs = planned source destination
      /\ finished = true
  | Some k =>
      obs = throughCall k (fullRun source destination)
      /\ calls obs = firstn (S k) (planned source destination)
      /\ finished = false
      /\ exists (before : list Obs) (a : Action),
           obs = (before ++ [Called a])%list
           /\ nth_error (planned source destination) k = Some a
  end.
Proof.
  intros obs finished. subst obs finished. rewrite sync_run.
  destruct (firstFailure oracle 0 (List.length (planned source destination)))
    as [k|] eqn:F; cbn [fst snd].
  - split; [reflexivity|]. split; [|split; [reflexivity|]].
    + now rewrite calls_throughCall, calls_fullRun.
    + apply firstFailure_range in F.
      rewrite <- calls_fullRun. apply throughCall_last.
      rewrite calls_fullRun. lia.
  - split; [reflexivity|]. split; [apply calls_fullRun | reflexivity].
Qed.

(* ================================================================== *)
(** * Further properties *)

(** ** Matching *)

Section MatchingFacts.

Context {H : Host}.

(** When [isEqualRef] answers true: through the [date]s or through the
    [dateTime]s, both strings that parse to one instant. *)
Lemma isEqualRef_true (r1 r2 : TimeRef) :
  isEqualRef r1 r2 = true
  <-> (exists s1 s2 t, date r1 = JStr s1 /\ date r2 = JStr s2
                       /\ dateParse s1 = Some t /\ dateParse s2 = Some t)
      \/ (exists s1 s2 t, dateTime r1 = JStr s1 /\ dateTime r2 = JStr s2
                          /\ dateParse s1 = Some t /\ dateParse s2 = Some t).
Proof.
  assert (B : forall v1 v2 : jsval,
             truthy v1 && truthy v2 && check v1 v2 = true
             <-> exists s1 s2 t, v1 = JStr s1 /\ v2 = JStr s2
                                 /\ dateParse s1 = Some t
                                 /\ dateParse s2 = Some t).
  { intros v1 v2. split.
    - intro E. apply andb_true_iff in E. destruct E as [E C].
      apply andb_true_iff in E. destruct E as [T1 T2].
      apply truthy_JStr in T1, T2.
      destruct T1 as (s1 & -> & _), T2 as (s2 & -> & _).
      apply check_true in C. destruct C as (t & P1 & P2).
      now exists s1, s2, t.
    - intros (s1 & s2 & t & -> & -> & P1 & P2).
      assert (C : check (JStr s1) (JStr s2) = true)
        by (apply check_true; now exists t).
      apply parsed_nonempty, String.eqb_neq in P1, P2.
      simpl. now rewrite P1, P2, C. }
  unfold isEqualRef. rewrite <- !B.
  destruct (truthy (date r1) && truthy (date r2)
            && check (date r1) (date r2)).
  - tauto.
  - destruct (truthy (dateTime r1) && truthy (dateTime r2)
              && check (dateTime r1) (dateTime r2)).
    + tauto.
    + split; [discriminate | intros [E|E]; discriminate].
Qed.

Lemma isEqualRef_sym (r1 r2 : TimeRef) : isEqualRef r1 r2 = isEqualRef r2 r1.
Proof.
  destruct (isEqualRef r1 r2) eqn:E12, (isEqualRef r2 r1) eqn:E21;
    try reflexivity.
  - apply isEqualRef_true in E12.
    assert (X : isEqualRef r2 r1 = true).
    { apply isEqualRef_true.
      destruct E12 as [(s1 & s2 & t & A & B & C & D)
                      |(s1 & s2 & t & A & B & C & D)];
        [left | right]; now exists s2, s1, t. }
    congruence.
  - apply isEqualRef_true in E21.
    assert (X : isEqualRef r1 r2 = true).
    { apply isEqualRef_true.
      destruct E21 as [(s1 & s2 & t & A & B & C & D)
                      |(s1 & s2 & t & A & B & C & D)];
        [left | right]; now exists s2, s1, t. }
    congruence.
Qed.

Lemma strict_eq_sym (a b : jsval) : strict_eq a b = strict_eq b a.
Proof. destruct a, b; simpl; try reflexivity. apply String.eqb_sym. Qed.

Lemma isEqualRef_hasInstant (r1 r2 : TimeRef) :
  isEqualRef r1 r2 = true -> hasInstant r1 /\ hasInstant r2.
Proof.
  intro E. apply isEqualRef_true in E. unfold hasInstant.
  destruct E as [(s1 & s2 & t & A & B & C & D)|(s1 & s2 & t & A & B & C & D)].
  - split; left; eauto.
  - split; right; eauto.
Qed.

Lemma isEqualRef_refl (r : TimeRef) : isEqualRef r r = true <-> hasInstant r.
Proof.
  split.
  - intro E. now apply isEqualRef_hasInstant in E.
  - intro I. apply isEqualRef_true.
    destruct I as [(s & t & A & P)|(s & t & A & P)];
      [left | right]; now exists s, s, t.
Qed.

Lemma occurrenceMatch_true (a b : Event) :
  occurrenceMatch a b = true
  <-> summary a = summary b
      /\ isEqualRef (start a) (start b) = true
      /\ isEqualRef (end_ a) (end_ b) = true.
Proof.
  unfold occurrenceMatch, isEqualDate. rewrite <- strict_eq_true.
  destruct (strict_eq (summary a) (summary b)); simpl.
  - rewrite andb_true_iff. tauto.
  - split; [discriminate | tauto].
Qed.

End MatchingFacts.

(** X1.  The comparison does not depend on the order of its arguments:
    [isEqualDate(t1, t2)] and [isEqualDate(t2, t1)] give the same answer,
    and so does the test of the inner loops with the two events
    exchanged. *)
Theorem isEqualDate_symmetric (H : Host) (a b : Event) :
  isEqualDate a b = isEqualDate b a
  /\ occurrenceMatch a b = occurrenceMatch b a.
Proof.
  assert (S : isEqualDate a b = isEqualDate b a).
  { unfold isEqualDate.
    now rewrite (isEqualRef_sym (start a)), (isEqualRef_sym (end_ a)). }
  split; [exact S|].
  unfold occurrenceMatch. now rewrite strict_eq_sym, S.
Qed.

(** X2.  An event is equal to itself for [isEqualDate] exactly when its
    [start] and its [end] each carry a [date] or a [dateTime] that parses;
    and two events are only ever found equal when this holds of both.  An
    event with a date that does not parse (NaN) is equal to no event, not
    even to itself. *)
Theorem isEqualDate_reflexive_iff_parseable (H : Host) :
  (forall e : Event,
      isEqualDate e e = true <-> hasInstant (start e) /\ hasInstant (end_ e))
  /\ (forall a b : Event,
        isEqualDate a b = true ->
        hasInstant (start a) /\ hasInstant (end_ a)
        /\ hasInstant (start b) /\ hasInstant (end_ b))
  /\ (forall a b : Event,
        ~ hasInstant (start a) \/ ~ hasInstant (end_ a) ->
        isEqualDate a b = false /\ isEqualDate b a = false).
Proof.
  assert (P : forall a b : Event,
             isEqualDate a b = true ->
             hasInstant (start a) /\ hasInstant (end_ a)
             /\ hasInstant (start b) /\ hasInstant (end_ b)).
  { intros a b E. unfold isEqualDate in E.
    apply andb_true_iff in E. destruct E as [S E].
    apply isEqualRef_hasInstant in S, E. tauto. }
  split; [|split].
  - intro e. unfold isEqualDate.
    rewrite andb_true_iff, !isEqualRef_refl. tauto.
  - exact P.
  - intros a b N. split.
    + destruct (isEqualDate a b) eqn:E; [|reflexivity].
      apply P in E. tauto.
    + destruct (isEqualDate b a) eqn:E; [|reflexivity].
      apply P in E. tauto.
Qed.

Lemma isEqualDate_reflexive_iff_parseable_witness :
  @isEqualDate FixedOffset.jst
     (@normalizeRow FixedOffset.jst Samples.undated) Samples.listedLunch
  = false.
Proof.
  refine (proj1 (proj2 (proj2
            (isEqualDate_reflexive_iff_parseable FixedOffset.jst))
            (@normalizeRow FixedOffset.jst Samples.undated)
            Samples.listedLunch _)).
  left. intros [(s & t & A & P)|(s & t & A & P)].
  - vm_compute in A. injection A as <-. vm_compute in P. discriminate.
  - vm_compute in A. discriminate.
Defined.

(** X3.  Through an event whose [start] and [end] do not carry [date] and
    [dateTime] at once, equality is transitive: if the test of the loops
    holds between [a] and [b] and between [b] and [c], it holds between
    [a] and [c]. *)
Theorem occurrenceMatch_transitive (H : Host) (a b c : Event) :
  wellFormed (start b) -> wellFormed (end_ b) ->
  occurrenceMatch a b = true -> occurrenceMatch b c = true ->
  occurrenceMatch a c = true.
Proof.
  assert (T : forall r1 r2 r3 : TimeRef,
             wellFormed r2 ->
             isEqualRef r1 r2 = true -> isEqualRef r2 r3 = true ->
             isEqualRef r1 r3 = true).
  { intros r1 r2 r3 W E12 E23.
    apply isEqualRef_true in E12, E23. apply isEqualRef_true.
    destruct E12 as [(s1 & s2 & t & A1 & A2 & P1 & P2)
                    |(s1 & s2 & t & A1 & A2 & P1 & P2)];
      destruct E23 as [(s2' & s3 & t' & B2 & B3 & Q2 & Q3)
                      |(s2' & s3 & t' & B2 & B3 & Q2 & Q3)];
      unfold wellFormed in W.
    - left. exists s1, s3, t. repeat split; try assumption. congruence.
    - destruct W; congruence.
    - destruct W; congruence.
    - right. exists s1, s3, t. repeat split; try assumption. congruence. }
  intros Ws We Eab Ebc.
  apply occurrenceMatch_true in Eab, Ebc. apply occurrenceMatch_true.
  destruct Eab as (S1 & B1 & E1), Ebc as (S2 & B2 & E2).
  split; [congruence|]. split; eauto.
Qed.

Lemma occurrenceMatch_transitive_witness :
  @occurrenceMatch FixedOffset.jst
     (@normalizeRow FixedOffset.jst Samples.planning)
     (@normalizeRow FixedOffset.jst Samples.planning) = true.
Proof.
  apply (occurrenceMatch_transitive FixedOffset.jst
           (@normalizeRow FixedOffset.jst Samples.planning)
           Samples.listedPlanning
           (@normalizeRow FixedOffset.jst Samples.planning)
           (or_introl eq_refl) (or_introl eq_refl));
    vm_compute; reflexivity.
Defined.

(** ** Runs *)

Section RunFacts.

Context {H : Host}.

Lemma In_firstn {A : Type} (x : A) (n : nat) (l : list A) :
  In x (firstn n l) -> In x l.
Proof.
  revert n. induction l as [|y l IH]; intros [|n]; simpl; try tauto.
  intros [E|I]; [now left | right; eauto].
Qed.

(** Whatever the outcomes of the calls, the calls made are the first ones
    of the plan. *)
Lemma calls_sync (oracle : Oracle) (source destination : list Event) :
  exists n : nat,
    calls (fst (sync oracle source destination))
    = firstn n (planned source destination).
Proof.
  rewrite sync_run.
  destruct (firstFailure oracle 0 (List.length (planned source destination)))
    as [k|]; cbn [fst].
  - exists (S k). now rewrite calls_throughCall, calls_fullRun.
  - exists (List.length (planned source destination)).
    now rewrite calls_fullRun, firstn_all.
Qed.

Lemma filter_nil {A : Type} (f : A -> bool) (l : list A) :
  (forall x, In x l -> f x = false) -> filter f l = [].
Proof.
  induction l as [|y l IH]; simpl; intro N; [reflexivity|].
  rewrite (N y) by now left. apply IH. intros x I. apply N. now right.
Qed.

Lemma startMoment_startText (line : Row) :
  start (normalizeRow line) = dateOnly (format (dateParse (startText line)))
  \/ start (normalizeRow line)
     = instant (toISOString (dateParse (startText line))).
Proof.
  unfold normalizeRow, startText.
  destruct (adjustRange line) as [[[sd st] ed] et].
  destruct (strict_eq st (JStr "") && strict_eq et (JStr "")); simpl; auto.
Qed.

End RunFacts.

(** X4.  Whatever calls fail, the run only ever inserts a source event
    that no destination event matches, and only ever deletes (by its id) a
    destination event that no source event matches. *)
Theorem sync_calls_only_unmatched
  (H : Host) (oracle : Oracle) (source destination : list Event) (a : Action) :
  In a (calls (fst (sync oracle source destination))) ->
  (exists event : Event,
      a = Insert event /\ In event source
      /\ forall old, In old destination -> occurrenceMatch old event = false)
  \/ (exists old : Event,
         a = Delete (id old) /\ In old destination
         /\ forall event, In event source -> occurrenceMatch old event = false).
Proof.
  intro I. destruct (calls_sync oracle source destination) as [n E].
  rewrite E in I. apply In_firstn in I. unfold planned in I.
  apply in_app_or in I. destruct I as [I|I]; apply in_map_iff in I.
  - destruct I as (event & <- & I). left. exists event.
    split; [reflexivity|]. now apply unmatched_In in I.
  - destruct I as (old & <- & I). right. exists old.
    split; [reflexivity|]. now apply unmatched_In in I.
Qed.

Lemma sync_calls_only_unmatched_witness :
  exists event : Event,
    Insert (@normalizeRow FixedOffset.jst Samples.offsite) = Insert event
    /\ In event [@normalizeRow FixedOffset.jst Samples.offsite;
                 @normalizeRow FixedOffset.jst Samples.planning]
    /\ forall old, In old [Samples.listedPlanning; Samples.listedLunch] ->
                   @occurrenceMatch FixedOffset.jst old event = false.
Proof.
  destruct (sync_calls_only_unmatched FixedOffset.jst Samples.firstCallFails
              [@normalizeRow FixedOffset.jst Samples.offsite;
               @normalizeRow FixedOffset.jst Samples.planning]
              [Samples.listedPlanning; Samples.listedLunch]
              (Insert (@normalizeRow FixedOffset.jst Samples.offsite)))
    as [X|(old & E & _)].
  - vm_compute. now left.
  - exact X.
  - discriminate.
Defined.

(** X5.  No delete is attempted before every planned insert has
    succeeded: if the run makes any delete call, its calls begin with the
    inserts of all the unmatched source events, and the line with the
    number of inserted events has been logged. *)
Theorem deletes_follow_all_inserts
  (H : Host) (oracle : Oracle) (source destination : list Event)
  (eventId : jsval) :
  In (Delete eventId) (calls (fst (sync oracle source destination))) ->
  (exists deletes : list Action,
      calls (fst (sync oracle source destination))
      = (map Insert (toInsert source destination) ++ deletes)%list
      /\ forall a, In a deletes -> exists i, a = Delete i)
  /\ In (">>>> Inserted "
         ++ showCount (List.length (toInsert source destination))
         ++ " events." ++ nl)
        (logged (fst (sync oracle source destination))).
Proof.
  intro I.
  assert (NoDel : forall n, ~ In (Delete eventId)
                              (firstn n (map Insert (toInsert source destination)))).
  { intros n X. apply In_firstn, in_map_iff in X.
    destruct X as (e & E & _). discriminate. }
  assert (Dels : forall n a,
             In a (firstn n (map (fun old => Delete (id old))
                                 (toDelete source destination))) ->
             exists i, a = Delete i).
  { intros n a X. apply In_firstn, in_map_iff in X.
    destruct X as (o & <- & _). now eexists. }
  set (ni := List.length (toInsert source destination)).
  assert (Li : List.length (map Insert (toInsert source destination)) = ni)
    by apply length_map.
  revert I. rewrite sync_run.
  destruct (firstFailure oracle 0 (List.length (planned source destination)))
    as [k|] eqn:F; cbn [fst].
  - rewrite calls_throughCall, calls_fullRun. unfold planned.
    rewrite firstn_app, Li. intro I.
    destruct (Nat.le_gt_cases (S k) ni) as [L|L].
    + exfalso. replace (S k - ni)%nat with 0%nat in I by lia.
      rewrite firstn_O, app_nil_r in I. now apply NoDel in I.
    + rewrite firstn_all2 by lia. split.
      * eexists. split; [reflexivity|]. apply Dels.
      * unfold fullRun. cbn [app throughCall].
        rewrite throughCall_app_beyond
          by (rewrite calls_insertReports, length_map; fold ni; lia).
        rewrite calls_insertReports, length_map. fold ni.
        cbn [logged]. right.
        assert (LA : forall xs ys, logged (xs ++ ys)
                                   = (logged xs ++ logged ys)%list).
        { induction xs as [|[s|c] xs IH]; intro ys; simpl;
            [reflexivity | now rewrite IH | apply IH]. }
        rewrite LA. apply in_or_app. right.
        cbn [app throughCall logged]. now left.
  - rewrite calls_fullRun. unfold planned. intros _. split.
    + eexists. split; [reflexivity|]. intros a X.
      apply (Dels (List.length (toDelete source destination)) a).
      now rewrite <- (length_map (fun old => Delete (id old))), firstn_all.
    + unfold fullRun. cbn [app logged]. right.
      assert (LA : forall xs ys, logged (xs ++ ys)
                                 = (logged xs ++ logged ys)%list).
      { induction xs as [|[s|c] xs IH]; intro ys; simpl;
          [reflexivity | now rewrite IH | apply IH]. }
      rewrite LA. apply in_or_app. right. cbn [app logged]. now left.
Qed.

Lemma deletes_follow_all_inserts_witness :
  In (">>>> Inserted 1 events." ++ nl)
     (logged (fst (@sync FixedOffset.jst (fun _ => true)
                     [@normalizeRow FixedOffset.jst Samples.offsite;
                      @normalizeRow FixedOffset.jst Samples.planning]
                     [Samples.listedPlanning; Samples.listedLunch]))).
Proof.
  refine (proj2 (deletes_follow_all_inserts FixedOffset.jst (fun _ => true)
                   [@normalizeRow FixedOffset.jst Samples.offsite;
                    @normalizeRow FixedOffset.jst Samples.planning]
                   [Samples.listedPlanning; Samples.listedLunch]
                   (JStr "evt2") _)).
  vm_compute. right. now left.
Defined.

(** X6.  Running again changes nothing: take the calendar as a run in
    which every call succeeded leaves it (the events that were not
    deleted, and for each inserted event an event stored by the calendar
    that the loops' test finds equal to it).  A second run on the same
    source then makes no call at all, whatever calls would fail, and logs
    that 0 events were inserted and 0 deleted. *)
Theorem second_run_makes_no_call
  (H : Host) (oracle : Oracle) (stored : Event -> Event)
  (source destination : list Event) :
  (forall event, In event (toInsert source destination) ->
                 occurrenceMatch (stored event) event = true) ->
  sync oracle source (afterRun stored source destination)
  = ([Logged (">>>> Inserting new events..." ++ nl);
      Logged (">>>> Inserted 0 events." ++ nl);
      Logged (">>>> Deleting removed events..." ++ nl);
      Logged (">>>> Deleted 0 events." ++ nl)],
     true).
Proof.
  intro Stored.
  set (after := afterRun stored source destination).
  assert (Ins : toInsert source after = []).
  { unfold toInsert, unmatched. apply filter_nil. intros e Ie.
    apply negb_false_iff, existsb_exists.
    destruct (existsb (fun old => occurrenceMatch old e) destination) eqn:X.
    - apply existsb_exists in X. destruct X as (old & Io & M).
      exists old. split; [|exact M].
      apply in_or_app. left. apply filter_In. split; [exact Io|].
      apply existsb_exists. now exists e.
    - exists (stored e).
      assert (It : In e (toInsert source destination)).
      { unfold toInsert, unmatched. apply filter_In.
        split; [exact Ie|]. now rewrite X. }
      split; [|now apply Stored].
      apply in_or_app. right. now apply in_map. }
  assert (Del : toDelete source after = []).
  { unfold toDelete, unmatched. apply filter_nil. intros x Ix.
    apply negb_false_iff.
    apply in_app_or in Ix. destruct Ix as [Ix|Ix].
    - now apply filter_In in Ix.
    - apply in_map_iff in Ix. destruct Ix as (e & <- & It).
      apply existsb_exists. exists e. split; [|now apply Stored].
      unfold toInsert, unmatched in It. now apply filter_In in It. }
  rewrite sync_run. unfold planned, fullRun. rewrite Ins, Del. reflexivity.
Qed.

Lemma second_run_makes_no_call_witness :
  calls (fst (@sync FixedOffset.jst Samples.firstCallFails
                [@normalizeRow FixedOffset.jst Samples.offsite;
                 @normalizeRow FixedOffset.jst Samples.planning]
                (@afterRun FixedOffset.jst
                   (fun e => mkEvent (start e) (end_ e) (location e)
                                     (summary e) (description e) (JStr "new"))
                   [@normalizeRow FixedOffset.jst Samples.offsite;
                    @normalizeRow FixedOffset.jst Samples.planning]
                   [Samples.listedPlanning; Samples.listedLunch])))
  = [].
Proof.
  rewrite (second_run_makes_no_call FixedOffset.jst Samples.firstCallFails).
  - reflexivity.
  - intros event I. vm_compute in I. destruct I as [<-|[]].
    vm_compute. reflexivity.
Defined.

(** X7.  A record whose start does not parse is inserted at every run,
    whatever the calendar holds: its event, with "Invalid date" or [null]
    as start, is equal to no event for [isEqualDate], so a run in which
    every call succeeds inserts it, also when the calendar already holds
    the event stored for it by an earlier run.  ("Invalid date" itself is
    not a date for [Date].) *)
Theorem unparseable_record_inserted_at_every_run
  (H : Host) (lines : list Row) (line : Row) (destination : list Event) :
  dateParse "Invalid date" = None ->
  In line (tl lines) ->
  dateParse (startText line) = None ->
  (forall old : Event, isEqualDate old (normalizeRow line) = false)
  /\ In (Insert (normalizeRow line))
        (calls (fst (run (fun _ => true) lines destination))).
Proof.
  intros Inv Il Ps.
  assert (N : ~ hasInstant (start (normalizeRow line))).
  { destruct (startMoment_startText line) as [E|E]; rewrite E, Ps;
      intros [(s & t & A & P)|(s & t & A & P)]; simpl in A;
      try discriminate.
    injection A as <-. congruence. }
  assert (M : forall old, isEqualDate old (normalizeRow line) = false).
  { intro old. destruct (isEqualDate old (normalizeRow line)) eqn:E;
      [|reflexivity].
    unfold isEqualDate in E. apply andb_true_iff in E. destruct E as [S _].
    apply isEqualRef_hasInstant in S. tauto. }
  split; [exact M|].
  unfold run. rewrite sync_run, firstFailure_none. cbn [fst].
  rewrite calls_fullRun. unfold planned. apply in_or_app. left.
  apply in_map. apply unmatched_In. split.
  - rewrite parseRows_events. now apply in_map.
  - intros old _. unfold occurrenceMatch. rewrite M.
    now destruct (strict_eq (summary old) (summary (normalizeRow line))).
Qed.

Lemma unparseable_record_inserted_at_every_run_witness :
  In (Insert (@normalizeRow FixedOffset.jst Samples.undated))
     (calls (fst (@run FixedOffset.jst (fun _ => true)
                    [Samples.header; Samples.undated]
                    [mkEvent (dateOnly "Invalid date") (dateOnly "Invalid date")
                             (JStr "HQ") (JStr "Offsite") (JStr "")
                             (JStr "evt3")]))).
Proof.
  apply (unparseable_record_inserted_at_every_run FixedOffset.jst
           [Samples.header; Samples.undated] Samples.undated).
  - reflexivity.
  - now left.
  - reflexivity.
Defined.

(** ** More on normalisation *)

(** X8.  A record with the same start and end date and an end time is
    taken as it is: the date and time pairs are never swapped, because
    only the dates are compared.  The event starts at the instant of the
    date and the start time and ends at the instant of the date and the
    end time; on a host at a fixed offset, when the start time is later in
    the day than the end time, the event starts after it ends. *)
Theorem same_date_record_is_not_reordered :
  (forall (H : Host) (line : Row) (sd st et : string),
      cell line 0 = JStr sd -> cell line 1 = JStr st ->
      cell line 2 = JStr sd -> cell line 3 = JStr et -> et <> "" ->
      start (normalizeRow line)
        = instant (toISOString (dateParse (sd ++ " " ++ st)))
      /\ end_ (normalizeRow line)
        = instant (toISOString (dateParse (sd ++ " " ++ et))))
  /\ (forall (tz y m d : Z) (line : Row) (st et : string) (a b : Z),
        1000 <= y <= 9999 -> Calendar.validDate y m d = true ->
        cell line 0 = JStr (FixedOffset.ymdText y m d) ->
        cell line 1 = JStr st ->
        cell line 2 = JStr (FixedOffset.ymdText y m d) ->
        cell line 3 = JStr et -> et <> "" ->
        Text.freeOf "T" st = true -> Text.freeOf "T" et = true ->
        FixedOffset.clockTime st = Some a ->
        FixedOffset.clockTime et = Some b ->
        b < a ->
        start (@normalizeRow (FixedOffset.host tz) line)
          = instant (JStr (FixedOffset.isoText
                             (FixedOffset.localTime tz (y, m, d) a)))
        /\ end_ (@normalizeRow (FixedOffset.host tz) line)
          = instant (JStr (FixedOffset.isoText
                             (FixedOffset.localTime tz (y, m, d) b)))
        /\ FixedOffset.localTime tz (y, m, d) b
           < FixedOffset.localTime tz (y, m, d) a).
Proof.
  assert (G : forall (H : Host) (line : Row) (sd st et : string),
      cell line 0 = JStr sd -> cell line 1 = JStr st ->
      cell line 2 = JStr sd -> cell line 3 = JStr et -> et <> "" ->
      start (normalizeRow line)
        = instant (toISOString (dateParse (sd ++ " " ++ st)))
      /\ end_ (normalizeRow line)
        = instant (toISOString (dateParse (sd ++ " " ++ et)))).
  { intros H line sd st et E0 E1 E2 E3 N.
    apply String.eqb_neq in N.
    unfold normalizeRow, adjustRange. rewrite E0, E1, E2, E3.
    rewrite strict_eq_refl. simpl. rewrite N, andb_false_r. simpl.
    rewrite N, ?andb_false_r. split; reflexivity. }
  split; [exact G|].
  intros tz y m d line st et a b Ry V E0 E1 E2 E3 N Fs Fe Cs Ce L.
  destruct (G (FixedOffset.host tz) line _ st et E0 E1 E2 E3 N) as [-> ->].
  pose proof (CalendarFacts.validDate_bounds _ _ _ V) as [Rm Rd].
  pose proof (CalendarFacts.daysInMonth_bounds (Calendar.isLeap y) m) as Bd.
  change (@dateParse (FixedOffset.host tz)) with (FixedOffset.parse tz).
  rewrite (CalendarFacts.parse_local tz y m d st a) by (assumption || lia).
  rewrite (CalendarFacts.parse_local tz y m d et b) by (assumption || lia).
  split; [reflexivity|]. split; [reflexivity|].
  unfold FixedOffset.localTime, FixedOffset.utcTime. lia.
Qed.

Lemma same_date_record_is_not_reordered_witness :
  FixedOffset.localTime 540 (2024, 1, 10) 50400000
  < FixedOffset.localTime 540 (2024, 1, 10) 54000000.
Proof.
  apply (proj2 same_date_record_is_not_reordered 540 2024 1 10
           ["2024-01-10"; "15:00"; "2024-01-10"; "14:00"; ""; "Late"]
           "15:00" "14:00" 54000000 50400000);
    try reflexivity; try discriminate; lia.
Defined.

(** X9.  A record of fewer than four cells has no end time, no category
    and no title: the missing cells read [undefined].  Its event is always
    timed and is called "[undefined] undefined", with no description and
    no location. *)
Theorem short_record_reads_undefined (H : Host) (line : Row) :
  (List.length line <= 3)%nat ->
  summary (normalizeRow line) = JStr "[undefined] undefined"
  /\ description (normalizeRow line) = JUndefined
  /\ location (normalizeRow line) = JUndefined
  /\ isInstant (start (normalizeRow line))
  /\ isInstant (end_ (normalizeRow line)).
Proof.
  intro L.
  assert (U : forall k, (3 <= k)%nat -> cell line k = JUndefined).
  { intros k K. unfold cell.
    replace (nth_error line k) with (@None string); [reflexivity|].
    symmetry. apply nth_error_None. lia. }
  assert (NI : forall m : Moment, toISOString m <> JUndefined)
    by (intros [t|]; discriminate).
  unfold normalizeRow, adjustRange, buildSummary.
  rewrite (U 3%nat), (U 4%nat), (U 5%nat), (U 6%nat), (U 8%nat) by lia.
  destruct (strict_eq (cell line 0) (cell line 2)).
  - simpl. rewrite !andb_false_r. simpl.
    unfold isInstant; simpl. repeat split; auto.
  - destruct (gt (cell line 0) (cell line 2)); simpl;
      rewrite ?andb_false_r; simpl; unfold isInstant; simpl;
      repeat split; auto.
Qed.

Lemma short_record_reads_undefined_witness :
  summary (@normalizeRow FixedOffset.jst ["2024-01-10"; "14:00"])
  = JStr "[undefined] undefined".
Proof.
  apply (short_record_reads_undefined FixedOffset.jst ["2024-01-10"; "14:00"]).
  simpl. lia.
Defined.

(** ** The export form *)

Lemma leap_then_next_not (y : Z) :
  Calendar.isLeap y = true -> Calendar.isLeap (y + 1) = false.
Proof.
  unfold Calendar.isLeap. intro L.
  assert (M4 : y mod 4 = 0).
  { apply orb_true_iff in L. destruct L as [L|L].
    - apply andb_true_iff in L. destruct L as [L _]. now apply Z.eqb_eq in L.
    - apply Z.eqb_eq in L. CalendarFacts.dlia. }
  assert (N4 : (y + 1) mod 4 <> 0) by CalendarFacts.dlia.
  assert (N400 : (y + 1) mod 400 <> 0) by CalendarFacts.dlia.
  apply Z.eqb_neq in N4, N400. now rewrite N4, N400.
Qed.

(** X10.  The export is asked from today to the same month and day of the
    next year.  When today is a date of the calendar, that end is one too,
    except on 29 February: the form is then given 29 February of a year
    that has none. *)
Theorem export_window_end (y m d : Z) :
  Calendar.validDate y m d = true ->
  ExportForm.chosen "SetDate.Year" (ExportForm.selectDates y m d)
    = Some (ExportForm.numberText y)
  /\ ExportForm.chosen "EndDate.Year" (ExportForm.selectDates y m d)
    = Some (ExportForm.numberText (y + 1))
  /\ ExportForm.chosen "EndDate.Month" (ExportForm.selectDates y m d)
    = ExportForm.chosen "SetDate.Month" (ExportForm.selectDates y m d)
  /\ ExportForm.chosen "EndDate.Day" (ExportForm.selectDates y m d)
    = ExportForm.chosen "SetDate.Day" (ExportForm.selectDates y m d)
  /\ (Calendar.validDate (y + 1) m d = true <-> ~ (m = 2 /\ d = 29)).
Proof.
  intro V. repeat (split; [reflexivity|]).
  pose proof (CalendarFacts.validDate_bounds _ _ _ V) as [Rm Rd].
  unfold Calendar.validDate.
  rewrite !andb_true_iff, !Z.leb_le.
  destruct (Z.eq_dec m 2) as [->|N2].
  - unfold Calendar.daysInMonth in *. simpl in *.
    destruct (Calendar.isLeap y) eqn:Ly.
    + rewrite (leap_then_next_not y Ly). lia.
    + destruct (Calendar.isLeap (y + 1)); lia.
  - assert (E : forall l1 l2, Calendar.daysInMonth l1 m
                              = Calendar.daysInMonth l2 m).
    { intros l1 l2. unfold Calendar.daysInMonth.
      apply Z.eqb_neq in N2. now rewrite N2. }
    rewrite (E (Calendar.isLeap (y + 1)) (Calendar.isLeap y)). lia.
Qed.

Lemma export_window_end_witness :
  Calendar.validDate 2024 2 29 = true
  /\ ~ (Calendar.validDate (2024 + 1) 2 29 = true).
Proof.
  split; [reflexivity|].
  intro V.
  apply (proj2 (proj2 (proj2 (proj2 (export_window_end 2024 2 29 eq_refl)))))
    in V.
  apply V. split; reflexivity.
Defined.

(** ** The order of dates written with leading zeros *)

Module OrderFacts.
Import Calendar Text Checks FixedOffset Digits CalendarFacts.

Lemma digit_cases (k : Z) :
  0 <= k <= 9 ->
  k = 0 \/ k = 1 \/ k = 2 \/ k = 3 \/ k = 4 \/ k = 5 \/ k = 6 \/ k = 7
  \/ k = 8 \/ k = 9.
Proof. lia. Qed.

Ltac digits k Hk :=
  destruct (digit_cases k Hk)
    as [->|[->|[->|[->|[->|[->|[->|[->|[->| ->]]]]]]]]].

Lemma digit_rank_ltb (a b : Z) :
  0 <= a <= 9 -> 0 <= b <= 9 ->
  (unit_rank (digitChar a) <? unit_rank (digitChar b))%N = (a <? b).
Proof. intros Ha Hb. digits a Ha; digits b Hb; reflexivity. Qed.

(** One step of the comparison of two strings. *)
Lemma str_gt_cons (x y : ascii) (s t : string) :
  str_gt (String x s) (String y t)
  = if (unit_rank y <? unit_rank x)%N then true
    else if (unit_rank x <? unit_rank y)%N then false
    else str_gt s t.
Proof. reflexivity. Qed.

Lemma str_gt_digit (a b : Z) (s t : string) :
  0 <= a <= 9 -> 0 <= b <= 9 ->
  str_gt (String (digitChar a) s) (String (digitChar b) t)
  = if b <? a then true else if a <? b then false else str_gt s t.
Proof.
  intros Ha Hb. rewrite str_gt_cons. now rewrite !digit_rank_ltb by assumption.
Qed.

Lemma str_gt_two (m n : Z) (s t : string) :
  0 <= m <= 99 -> 0 <= n <= 99 ->
  str_gt (twoChars m ++ s) (twoChars n ++ t)
  = if n <? m then true else if m <? n then false else str_gt s t.
Proof.
  intros Hm Hn. unfold twoChars. cbn [append].
  rewrite !str_gt_digit by dlia.
  (repeat match goal with
         | |- context [?a <? ?b] => destruct (Z.ltb_spec a b)
         end; try reflexivity; dlia).
Qed.

Lemma str_gt_three (m n : Z) (s t : string) :
  0 <= m <= 999 -> 0 <= n <= 999 ->
  str_gt (threeChars m ++ s) (threeChars n ++ t)
  = if n <? m then true else if m <? n then false else str_gt s t.
Proof.
  intros Hm Hn. unfold threeChars. cbn [append].
  rewrite str_gt_digit by dlia. rewrite str_gt_two by dlia.
  (repeat match goal with
         | |- context [?a <? ?b] => destruct (Z.ltb_spec a b)
         end; try reflexivity; dlia).
Qed.

Lemma str_gt_four (y z : Z) (s t : string) :
  0 <= y <= 9999 -> 0 <= z <= 9999 ->
  str_gt (fourChars y ++ s) (fourChars z ++ t)
  = if z <? y then true else if y <? z then false else str_gt s t.
Proof.
  intros Hy Hz. unfold fourChars. cbn [append].
  rewrite str_gt_digit by dlia. rewrite str_gt_three by dlia.
  (repeat match goal with
         | |- context [?a <? ?b] => destruct (Z.ltb_spec a b)
         end; try reflexivity; dlia).
Qed.

Lemma four_layout (y : Z) :
  1000 <= y <= 9999 -> zeroFill y 4 false = fourChars y.
Proof.
  intro R. apply String.eqb_eq.
  apply (allFrom_spec (layoutOK 4 fourChars) (Z.to_nat 9000) 1000);
    [vm_compute; reflexivity | lia].
Qed.

Lemma two_layout (n : Z) : 0 <= n <= 99 -> zeroFill n 2 false = twoChars n.
Proof.
  intro R. apply String.eqb_eq.
  apply (allFrom_spec (layoutOK 2 twoChars) (Z.to_nat 100) 0);
    [vm_compute; reflexivity | lia].
Qed.

Lemma append_cons (c : ascii) (x : string) :
  String c EmptyString ++ x = String c x.
Proof. reflexivity. Qed.

Lemma append_empty (x : string) : x ++ "" = x.
Proof. induction x as [|c x IH]; simpl; [reflexivity | now rewrite IH]. Qed.

(** Dates written YYYY-MM-DD compare as strings the way they compare as
    dates. *)
Lemma str_gt_ymdText (y1 m1 d1 y2 m2 d2 : Z) :
  1000 <= y1 <= 9999 -> 1 <= m1 <= 12 -> 1 <= d1 <= 31 ->
  1000 <= y2 <= 9999 -> 1 <= m2 <= 12 -> 1 <= d2 <= 31 ->
  str_gt (ymdText y1 m1 d1) (ymdText y2 m2 d2) = true
  <-> dateLt (y2, m2, d2) (y1, m1, d1).
Proof.
  intros Ry1 Rm1 Rd1 Ry2 Rm2 Rd2. unfold ymdText, dateLt.
  rewrite !four_layout, !two_layout by lia.
  rewrite !append_cons.
  rewrite str_gt_four by lia.
  destruct (Z.ltb_spec y2 y1); [split; [lia | reflexivity]|].
  destruct (Z.ltb_spec y1 y2); [split; [discriminate | lia]|].
  rewrite str_gt_cons, N.ltb_irrefl.
  rewrite str_gt_two by lia.
  destruct (Z.ltb_spec m2 m1); [split; [lia | reflexivity]|].
  destruct (Z.ltb_spec m1 m2); [split; [discriminate | lia]|].
  rewrite str_gt_cons, N.ltb_irrefl.
  rewrite <- (append_empty (twoChars d1)), <- (append_empty (twoChars d2)).
  rewrite str_gt_two by lia.
  destruct (Z.ltb_spec d2 d1); [split; [lia | reflexivity]|].
  destruct (Z.ltb_spec d1 d2); [split; [discriminate | lia]|].
  split; [discriminate | lia].
Qed.








Lemma dateLt_asym (c1 c2 : Z * Z * Z) : dateLt c1 c2 -> ~ dateLt c2 c1.
Proof.
  destruct c1 as [[y1 m1] d1], c2 as [[y2 m2] d2]. unfold dateLt. lia.
Qed.

(** What lines 173-186 do to two different dates written YYYY-MM-DD: the
    earlier date comes first. *)
Lemma padded_dates_order (y1 m1 d1 y2 m2 d2 : Z) :
  1000 <= y1 <= 9999 -> validDate y1 m1 d1 = true ->
  1000 <= y2 <= 9999 -> validDate y2 m2 d2 = true ->
  (dateLt (y1, m1, d1) (y2, m2, d2) ->
   ymdText y1 m1 d1 <> ymdText y2 m2 d2
   /\ str_gt (ymdText y1 m1 d1) (ymdText y2 m2 d2) = false)
  /\ (dateLt (y2, m2, d2) (y1, m1, d1) ->
      str_gt (ymdText y1 m1 d1) (ymdText y2 m2 d2) = true).
Proof.
  intros Ry1 V1 Ry2 V2.
  pose proof (validDate_bounds _ _ _ V1) as [Rm1 Rd1].
  pose proof (validDate_bounds _ _ _ V2) as [Rm2 Rd2].
  pose proof (daysInMonth_bounds (isLeap y1) m1).
  pose proof (daysInMonth_bounds (isLeap y2) m2).
  split.
  - intro L. split.
    + intro E.
      assert (G : str_gt (ymdText y2 m2 d2) (ymdText y1 m1 d1) = true)
        by (apply str_gt_ymdText; try lia; exact L).
      rewrite E, str_gt_irrefl in G. discriminate.
    + destruct (str_gt (ymdText y1 m1 d1) (ymdText y2 m2 d2)) eqn:G;
        [|reflexivity].
      apply str_gt_ymdText in G; try lia.
      now apply dateLt_asym in L.
  - intro L. apply str_gt_ymdText; try lia. exact L.
Qed.



(** X12.  On a host at a fixed offset, an all-day record over two
    different dates of the calendar written YYYY-MM-DD becomes an event
    whose [start] is the earlier date and whose [end] is the later date
    itself: a day is added to the end only when the range is empty. *)
Theorem all_day_range_keeps_its_dates
  (tz y1 m1 d1 y2 m2 d2 : Z) (line : Row) :
  1000 <= y1 <= 9999 -> validDate y1 m1 d1 = true ->
  1000 <= y2 <= 9999 -> validDate y2 m2 d2 = true ->
  cell line 0 = JStr (ymdText y1 m1 d1) -> cell line 1 = JStr "" ->
  cell line 2 = JStr (ymdText y2 m2 d2) -> cell line 3 = JStr "" ->
  (dateLt (y1, m1, d1) (y2, m2, d2) ->
   start (@normalizeRow (host tz) line) = dateOnly (ymdText y1 m1 d1)
   /\ end_ (@normalizeRow (host tz) line) = dateOnly (ymdText y2 m2 d2))
  /\ (dateLt (y2, m2, d2) (y1, m1, d1) ->
      start (@normalizeRow (host tz) line) = dateOnly (ymdText y2 m2 d2)
      /\ end_ (@normalizeRow (host tz) line) = dateOnly (ymdText y1 m1 d1)).
Proof.
  intros Ry1 V1 Ry2 V2 E0 E1 E2 E3.
  pose proof (validDate_bounds _ _ _ V1) as [Rm1 Rd1].
  pose proof (validDate_bounds _ _ _ V2) as [Rm2 Rd2].
  pose proof (daysInMonth_bounds (isLeap y1) m1).
  pose proof (daysInMonth_bounds (isLeap y2) m2).
  pose proof (padded_dates_order y1 m1 d1 y2 m2 d2 Ry1 V1 Ry2 V2) as [Fw Bw].
  assert (Two : forall ya ma da yb mb db,
             1000 <= ya <= 9999 -> validDate ya ma da = true ->
             1000 <= yb <= 9999 -> validDate yb mb db = true ->
             1 <= da <= 31 -> 1 <= db <= 31 ->
             dateLt (ya, ma, da) (yb, mb, db) ->
             let s := parse tz (ymdText ya ma da ++ " " ++ "") in
             let e := parse tz (ymdText yb mb db ++ " " ++ "") in
             @format (host tz) s = ymdText ya ma da
             /\ @format (host tz)
                  (if @isSameOrAfter s e then @cloneAddDay (host tz) s else e)
                = ymdText yb mb db).
  { intros ya ma da yb mb db Ra Va Rb Vb Rda Rdb L s e. subst s e.
    pose proof (validDate_bounds _ _ _ Va) as [Rma _].
    pose proof (validDate_bounds _ _ _ Vb) as [Rmb _].
    rewrite (parse_local tz ya ma da "" 0) by (try reflexivity; lia).
    rewrite (parse_local tz yb mb db "" 0) by (try reflexivity; lia).
    pose proof (makeDay_lt _ _ _ _ _ _ Va Vb L) as M.
    cbn [isSameOrAfter].
    replace (localTime tz (yb, mb, db) 0 <=? localTime tz (ya, ma, da) 0)
      with false
      by (symmetry; apply Z.leb_gt;
          unfold localTime, utcTime, msPerDay; lia).
    cbn [format]. change (@formatYMD (host tz)) with (ymdString tz).
    now rewrite !ymdString_local. }
  split; intro L; unfold normalizeRow;
    rewrite (adjustRange_allDay line E1 E3), E0, E2; cbn [gt].
  - destruct (Fw L) as [_ ->]. cbn [to_string strict_eq String.eqb andb].
    change (@dateParse (host tz)) with (parse tz).
    destruct (Two y1 m1 d1 y2 m2 d2) as [-> ->]; try assumption; try lia.
    split; reflexivity.
  - rewrite (Bw L). cbn [to_string strict_eq String.eqb andb].
    change (@dateParse (host tz)) with (parse tz).
    destruct (Two y2 m2 d2 y1 m1 d1) as [-> ->]; try assumption; try lia.
    split; reflexivity.
Qed.


Lemma all_day_range_keeps_its_dates_witness :
  start (@normalizeRow jst ["2024-01-10"; ""; "2024-01-12"; ""; ""; "Fair"])
  = dateOnly "2024-01-10"
  /\ end_ (@normalizeRow jst ["2024-01-10"; ""; "2024-01-12"; ""; ""; "Fair"])
     = dateOnly "2024-01-12".
Proof.
  apply (proj1 (all_day_range_keeps_its_dates 540 2024 1 10 2024 1 12
                  ["2024-01-10"; ""; "2024-01-12"; ""; ""; "Fair"]
                  ltac:(lia) eq_refl ltac:(lia) eq_refl
                  eq_refl eq_refl eq_refl eq_refl)).
  unfold dateLt. lia.
Defined.

End OrderFacts.

(** ** Reading back the dates that were written *)

Module ReadBack.
Import Calendar Text Checks FixedOffset Digits CalendarFacts OrderFacts.

Lemma fixedNumber_length (w : nat) (s : string) (v : Z) :
  fixedNumber w s = Some v -> String.length s = w.
Proof.
  unfold fixedNumber. destruct (Nat.eqb_spec (String.length s) w);
    [auto | discriminate].
Qed.

Lemma length2 (s : string) :
  String.length s = 2%nat -> exists a b, s = String a (String b EmptyString).
Proof.
  destruct s as [|a [|b [|c s]]]; simpl; try discriminate. now exists a, b.
Qed.

Lemma length3 (s : string) :
  String.length s = 3%nat ->
  exists a b c, s = String a (String b (String c EmptyString)).
Proof.
  destruct s as [|a [|b [|c [|d s]]]]; simpl; try discriminate.
  now exists a, b, c.
Qed.

(** The time of the day read back from HH:MM:SS.sssZ. *)
Lemma isoClock_written (hh mm ss sss : string) (h mi s ms : Z) :
  fixedNumber 2 hh = Some h -> fixedNumber 2 mm = Some mi ->
  fixedNumber 2 ss = Some s -> fixedNumber 3 sss = Some ms ->
  h <= 23 -> mi <= 59 -> s <= 59 ->
  isoClock (hh ++ ":" ++ mm ++ ":" ++ ss ++ "." ++ sss ++ "Z")
  = Some (makeTime h mi s 0 + ms, 0).
Proof.
  intros Fh Fm Fs Fms Bh Bm Bs.
  destruct (length2 hh (fixedNumber_length _ _ _ Fh)) as (h1 & h2 & ->).
  destruct (length2 mm (fixedNumber_length _ _ _ Fm)) as (m1 & m2 & ->).
  destruct (length2 ss (fixedNumber_length _ _ _ Fs)) as (s1 & s2 & ->).
  destruct (length3 sss (fixedNumber_length _ _ _ Fms)) as (x1 & x2 & x3 & ->).
  unfold isoClock. cbn [append substring String.length Nat.sub].
  rewrite Fh, Fm, Fs. unfold checkHMS.
  replace (h <=? 23) with true by lia.
  replace (mi <=? 59) with true by lia.
  replace (s <=? 59) with true by lia.
  cbn [andb]. rewrite Fms. reflexivity.
Qed.

Lemma three_text (n : Z) : 0 <= n <= 999 -> digitsOK 3 n = true.
Proof.
  intro R. apply (allFrom_spec (digitsOK 3) (Z.to_nat 1000) 0);
    [vm_compute; reflexivity | lia].
Qed.

(** The year of a day that lies between the first days of two years. *)
Lemma yearFromDay_between (ya yb day : Z) :
  dayFromYear ya <= day < dayFromYear yb ->
  ya <= yearFromDay day < yb.
Proof.
  intros [L U]. pose proof (yearFromDay_spec day) as [S1 S2]. split.
  - destruct (Z.le_gt_cases ya (yearFromDay day)) as [?|G]; [assumption|].
    pose proof (dayFromYear_mono (yearFromDay day + 1) ya ltac:(lia)). lia.
  - destruct (Z.lt_ge_cases (yearFromDay day) yb) as [?|G]; [assumption|].
    pose proof (dayFromYear_mono yb (yearFromDay day) ltac:(lia)). lia.
Qed.

Lemma civil_of_inYears (t : Z) :
  inYears 1000 10000 t ->
  let '(y, m, d) := civilFromDay (t / msPerDay) in
  1000 <= y <= 9999 /\ 1 <= m <= 12 /\ 1 <= d <= 31
  /\ makeDay y m d = t / msPerDay.
Proof.
  intro R. unfold inYears, msPerDay in R.
  pose proof (makeDay_civilFromDay (t / msPerDay)) as C.
  assert (Y : 1000 <= yearFromDay (t / msPerDay) < 10000).
  { apply yearFromDay_between. unfold msPerDay. dlia. }
  unfold civilFromDay in *. cbv zeta in *.
  destruct C as [V M]. apply validDate_bounds in V. destruct V as [Rm Rd].
  pose proof (daysInMonth_bounds (isLeap (yearFromDay (t / msPerDay)))
                (monthFromDay (isLeap (yearFromDay (t / msPerDay)))
                   (t / msPerDay - dayFromYear (yearFromDay (t / msPerDay))))).
  repeat split; lia.
Qed.

(** What [toISOString] writes, [new Date] reads back as the same instant. *)
Lemma parse_isoText (tz t : Z) :
  inYears 1000 10000 t -> parse tz (isoText t) = Some t.
Proof.
  intro R. pose proof (civil_of_inYears t R) as C.
  unfold isoText.
  destruct (civilFromDay (t / msPerDay)) as [[y m] d].
  destruct C as (Ry & Rm & Rd & M).
  replace ((0 <=? y) && (y <=? 9999)) with true
    by (symmetry; apply andb_true_iff; split; apply Z.leb_le; lia).
  set (r := t mod msPerDay).
  assert (Br : 0 <= r < msPerDay) by (subst r; unfold msPerDay; dlia).
  unfold msPerDay in Br.
  destruct (digitsOK_spec _ _ (two_text (r / 3600000) ltac:(dlia)))
    as (Fh & _).
  destruct (digitsOK_spec _ _ (two_text (r / 60000 mod 60) ltac:(dlia)))
    as (Fm & _).
  destruct (digitsOK_spec _ _ (two_text (r / 1000 mod 60) ltac:(dlia)))
    as (Fs & _).
  destruct (digitsOK_spec _ _ (three_text (r mod 1000) ltac:(dlia)))
    as (Fx & _).
  assert (A : forall s1 s2 s3 : string, (s1 ++ s2) ++ s3 = s1 ++ s2 ++ s3).
  { induction s1 as [|c s1 IH]; intros s2 s3; simpl;
      [reflexivity | now rewrite IH]. }
  match goal with
  | |- parse tz (_ ++ "-" ++ _ ++ "-" ++ _ ++ "T" ++ ?rest) = _ =>
      replace (zeroFill y 4 false ++ "-" ++ zeroFill m 2 false ++ "-"
               ++ zeroFill d 2 false ++ "T" ++ rest)
        with (ymdText y m d ++ String "T" rest)
        by (unfold ymdText; rewrite !A; reflexivity)
  end.
  unfold parse.
  rewrite cutAt_free by (apply ymdText_free; auto).
  rewrite isoDate_ymdText by assumption.
  rewrite (isoClock_written _ _ _ _ _ _ _ _ Fh Fm Fs Fx) by dlia.
  unfold utcTime. f_equal. rewrite M. subst r.
  unfold makeTime, msPerDay in *. dlia.
Qed.

(** The date that [format] writes, [new Date] reads back as midnight UTC
    of that date. *)
Lemma parse_ymdString (tz t : Z) :
  inYears 1000 10000 (t + tz * 60000) ->
  parse tz (ymdString tz t) = Some ((t + tz * 60000) / msPerDay * msPerDay).
Proof.
  intro R. pose proof (civil_of_inYears _ R) as C. unfold ymdString.
  destruct (civilFromDay ((t + tz * 60000) / msPerDay)) as [[y m] d].
  destruct C as (Ry & Rm & Rd & M).
  rewrite parse_date_alone by assumption. now rewrite M.
Qed.

Section SelfMatch.

Context {H : Host}.

(** An event made from two instants is equal to itself for the loops'
    test as soon as the host reads back the strings it wrote for them. *)
Lemma normalizeRow_self_match (line : Row) (ts te : Z) :
  dateParse (startText line) = Some ts ->
  dateParse (endText line) = Some te ->
  dateParse (isoString ts) <> None -> dateParse (isoString te) <> None ->
  dateParse (formatYMD ts) <> None -> dateParse (formatYMD te) <> None ->
  (exists t', addOneDay ts = Some t' /\ dateParse (formatYMD t') <> None) ->
  occurrenceMatch (normalizeRow line) (normalizeRow line) = true.
Proof.
  intros Ps Pe Is Ie Fs Fe (t' & A & Fa).
  assert (D : forall s, dateParse s <> None -> hasInstant (dateOnly s)).
  { intros s N. left. destruct (dateParse s) as [t|] eqn:P; [|congruence].
    now exists s, t. }
  assert (I : forall s, dateParse s <> None -> hasInstant (instant (JStr s))).
  { intros s N. right. destruct (dateParse s) as [t|] eqn:P; [|congruence].
    now exists s, t. }
  apply occurrenceMatch_true. split; [reflexivity|].
  rewrite !isEqualRef_refl.
  unfold normalizeRow, startText, endText in *.
  destruct (adjustRange line) as [[[sd st] ed] et].
  rewrite Ps, Pe.
  destruct (strict_eq st (JStr "") && strict_eq et (JStr "")); cbn.
  - split; [now apply D|].
    destruct (te <=? ts); cbn; [rewrite A; cbn|]; now apply D.
  - split; now apply I.
Qed.

End SelfMatch.

(** X13.  On a host at a fixed offset (within a day of UTC), a record
    whose start and end parse to instants of the years 1001 to 9997
    becomes an event that the loops' test finds equal to itself: what
    [toISOString] and [format] write at lines 204-208, [new Date] reads
    back at line 110.  So the event stored for it by a run is matched at
    the next run. *)
Theorem normalised_event_equals_itself
  (tz : Z) (line : Row) (ts te : Z) :
  -1440 <= tz <= 1440 ->
  @dateParse (host tz) (startText line) = Some ts ->
  @dateParse (host tz) (endText line) = Some te ->
  inYears 1001 9998 ts -> inYears 1001 9998 te ->
  @occurrenceMatch (host tz) (@normalizeRow (host tz) line)
                   (@normalizeRow (host tz) line) = true.
Proof.
  intros Tz Ps Pe Rs Re.
  unfold inYears in Rs, Re.
  assert (W : forall t dt,
             dayFromYear 1001 * msPerDay <= t < dayFromYear 9998 * msPerDay ->
             - msPerDay <= dt <= 2 * msPerDay ->
             inYears 1000 10000 (t + dt)).
  { intros t dt R B. unfold inYears, msPerDay in *.
    change (dayFromYear 1000) with (-354285).
    change (dayFromYear 10000) with 2932897.
    change (dayFromYear 1001) with (-353920) in R.
    change (dayFromYear 9998) with 2932167 in R. lia. }
  assert (N : forall s v, parse tz s = Some v -> parse tz s <> None)
    by congruence.
  apply (normalizeRow_self_match line ts te Ps Pe).
  - apply (N _ ts), parse_isoText.
    replace ts with (ts + 0) by lia. apply W; [assumption | unfold msPerDay; lia].
  - apply (N _ te), parse_isoText.
    replace te with (te + 0) by lia. apply W; [assumption | unfold msPerDay; lia].
  - eapply N, parse_ymdString. apply W; [assumption | unfold msPerDay; lia].
  - eapply N, parse_ymdString. apply W; [assumption | unfold msPerDay; lia].
  - exists (ts + msPerDay). split; [reflexivity|].
    eapply N, parse_ymdString.
    replace (ts + msPerDay + tz * 60000) with (ts + (msPerDay + tz * 60000))
      by lia.
    apply W; [assumption | unfold msPerDay; lia].
Qed.

Lemma normalised_event_equals_itself_witness :
  @occurrenceMatch (host 540) (@normalizeRow (host 540) Samples.planning)
                   (@normalizeRow (host 540) Samples.planning) = true.
Proof.
  refine (normalised_event_equals_itself 540 Samples.planning
            1704862800000 1704898799000 _ _ _ _ _).
  - lia.
  - vm_compute. reflexivity.
  - vm_compute. reflexivity.
  - unfold inYears. split; [apply Z.leb_le | apply Z.ltb_lt];
      vm_compute; reflexivity.
  - unfold inYears. split; [apply Z.leb_le | apply Z.ltb_lt];
      vm_compute; reflexivity.
Defined.

End ReadBack.
